(** * CCTwinCities MCP server: the three tool handlers of [src/index.ts]

    A shallow embedding of the handlers registered by [createServer]:
    [get_volunteer_opportunities], [get_donation_options] and
    [search_org_info], together with the properties the specification
    states about them.

    Modelling conventions.
    - A JavaScript string is a [string] (a sequence of 8-bit characters);
      [toLowerCase] lower-cases the ASCII letters, which is what
      [String.prototype.toLowerCase] does on ASCII text.
    - A JavaScript number read from [CC.json] or received as [age_minimum]
      is an integer, a [Z] (the data model documents ages 14 and 18, group
      sizes and yearly counts).
    - An optional parameter ([z.string().optional()] and the like) is an [option]: [None] is
      [undefined].
    - The first part works on typed records, the shape documented for
      [CC.json]; the last part ([Module Raw]) works on records whose fields
      may be missing, where property access can throw, and models the
      [try]/[catch] of each handler.
    - Of the Express shell the file models the CORS origin, the session
      registry and the [POST /messages] handler; the transports and what
      they do with a message belong to the protocol library and are
      parameters. Of the widget it models the local filters, the drop-down
      options and the choice of the view. *)

From Stdlib Require Import ZArith String Ascii List Bool DecimalString Lia Btauto.
From Stdlib Require Import DecimalZ DecimalPos.
From stdpp Require Import base list strings gmap sorting.

(** ** Strings *)

Definition nl : string := String (ascii_of_nat 10) "".

Definition lower_ascii (c : ascii) : ascii :=
  let n := nat_of_ascii c in
  if (65 <=? n)%nat && (n <=? 90)%nat then ascii_of_nat (n + 32) else c.

(** [s.toLowerCase()] *)
Fixpoint toLowerCase (s : string) : string :=
  match s with
  | EmptyString => EmptyString
  | String c s' => String (lower_ascii c) (toLowerCase s')
  end.

(** [s.includes(kw)]: [kw] occurs in [s] at some position. *)
Fixpoint includes (s kw : string) : bool :=
  String.prefix kw s ||
  match s with
  | EmptyString => false
  | String _ s' => includes s' kw
  end.

(** [l.join(sep)] on an array of strings. *)
Definition join (l : list string) (sep : string) : string :=
  String.concat sep l.

(** [s.split(" ")] *)
Fixpoint split_space (s : string) : list string :=
  match s with
  | EmptyString => [EmptyString]
  | String c s' =>
      if Ascii.eqb c " "%char then EmptyString :: split_space s'
      else match split_space s' with
           | w :: ws => String c w :: ws
           | [] => [String c EmptyString]
           end
  end.

(** A string is truthy when it is not empty. *)
Definition truthy (s : string) : bool := negb (s =? "")%string.

(** [`${n}`] for an integer [n]: its decimal digits, as JavaScript prints
    integers below 10^21 in absolute value. *)
Definition show_number (n : Z) : string :=
  NilZero.string_of_int (Z.to_int n).

(** [l.map((x, idx) => f(x, idx))] *)
Fixpoint map_idx {A B : Type} (f : A -> nat -> B) (idx : nat) (l : list A)
  : list B :=
  match l with
  | [] => []
  | x :: l' => f x idx :: map_idx f (S idx) l'
  end.

(** ** Data model: the typed shape of [CC.json]

    [CC.json] itself is not part of the sources. The records list the
    properties the handlers read; for an opportunity they follow the shape
    documented in [AUDIT-FIXES.md], where [address], [signup_url],
    [max_group_size] and [background_check] may be null. The data store is a
    parameter of every statement. *)

Module Contact.
Record t := { phone : string; email : string }.
End Contact.

Module Location.
Record t := { city : string; facility : string; address : option string }.
End Location.

Module Schedule.
Record t := { type : string; details : string }.
End Schedule.

Module Requirements.
Record t := {
  age_minimum : Z;
  background_check : option bool;
  skills : list string;
  group_friendly : bool;
  max_group_size : option Z
}.
End Requirements.

Module Opportunity.
Record t := {
  id : string;
  title : string;
  description : string;
  location : Location.t;
  schedule : Schedule.t;
  requirements : Requirements.t;
  contact : Contact.t;
  signup_url : option string;
  source_url : string
}.
End Opportunity.

Module GeneralInfo.
Record t := { main_contact : Contact.t }.
End GeneralInfo.

Module Volunteer.
Record t := {
  opportunities : list Opportunity.t;
  general_info : GeneralInfo.t
}.
End Volunteer.

(** The donation sections, one per donation type. *)

Module OnlineDonation.
Record t := {
  donation_page_url : string;
  types : list string;
  notes : string;
  contact : Contact.t
}.
End OnlineDonation.

Module AcceptedItem.
Record t := {
  category : string;
  details : string;
  restrictions : option string
}.
End AcceptedItem.

Module DropOffLocation.
Record t := {
  name : string;
  address : string;
  hours : string;
  phone : string;
  email : string
}.
End DropOffLocation.

Module InKindDonation.
Record t := {
  accepted_items : list AcceptedItem.t;
  not_accepted : list string;
  drop_off_locations : list DropOffLocation.t;
  policies : list string;
  wishlist_url : string
}.
End InKindDonation.

Module VehicleDonation.
Record t := {
  process_description : string;
  phone : string;
  program_url : string
}.
End VehicleDonation.

Module Donations.
Record t := {
  online : OnlineDonation.t;
  in_kind : InKindDonation.t;
  vehicle : VehicleDonation.t
}.
End Donations.

(** The organization section. *)

Module Stats.
Record t := {
  people_served_annually : Z;
  meals_served_annually : Z;
  nights_of_housing_provided_annually : Z;
  volunteers_annually : Z;
  volunteer_hours_annually : Z;
  years_operating : Z
}.
End Stats.

Module About.
Record t := { history : string; founded : Z; stats : Stats.t }.
End About.

Module Service.
Record t := { name : string; description : string; keywords : list string }.
End Service.

Module OrgLocation.
Record t := { name : string; address : string; phone : option string }.
End OrgLocation.

Module Event.
Record t := { name : string; date : string; description : string; url : string }.
End Event.

Module OrgContact.
Record t := { main_phone : string; main_email : string; hours : string }.
End OrgContact.

Module Organization.
Record t := {
  mission : string;
  about : About.t;
  services : list Service.t;
  locations : list OrgLocation.t;
  upcoming_events : list Event.t;
  contact : OrgContact.t;
  service_area : string;
  source_url : string
}.
End Organization.

(** [ccData], the parsed and validated [CC.json]. *)
Module CCData.
Record t := {
  volunteer : Volunteer.t;
  donations : Donations.t;
  organization : Organization.t
}.
End CCData.

(** ** Tool results *)

Module TextContent.
Record t := { type : string; text : string }.
End TextContent.

Module StructuredContent.
Record t := {
  opportunities : list Opportunity.t;
  contact : Contact.t
}.
End StructuredContent.

(** The three [openai/...] entries of [_meta]. *)
Module Meta.
Record t := {
  outputTemplate : string;
  widgetAccessible : bool;
  widgetDescription : string
}.
End Meta.

Module ToolResult.
Record t := {
  content : list TextContent.t;
  structuredContent : option StructuredContent.t;
  _meta : option Meta.t
}.

(** A result that carries one text item and nothing else. *)
Definition text_only (text : string) : t :=
  {| content := [ {| TextContent.type := "text"; TextContent.text := text |} ];
     structuredContent := None;
     _meta := None |}.
End ToolResult.

(** ** Tool schema of [get_volunteer_opportunities] *)

(** [z.enum(["one-time", "weekly", "flexible", "ongoing"])] *)
Inductive ScheduleType := one_time | weekly | flexible | ongoing.

Definition schedule_type_string (t : ScheduleType) : string :=
  match t with
  | one_time => "one-time"
  | weekly => "weekly"
  | flexible => "flexible"
  | ongoing => "ongoing"
  end.

(** [GetVolunteerOpportunitiesSchema] *)
Module Params.
Record t := {
  keyword : option string;
  city : option string;
  schedule_type : option ScheduleType;
  age_minimum : option Z;
  group_friendly : option bool;
  skill : option string
}.

(** The call with no argument at all. *)
Definition none : t :=
  {| keyword := None; city := None; schedule_type := None;
     age_minimum := None; group_friendly := None; skill := None |}.

(** The same call with one argument replaced. *)
Definition set_keyword (v : option string) (p : t) : t :=
  {| keyword := v; city := city p; schedule_type := schedule_type p;
     age_minimum := age_minimum p; group_friendly := group_friendly p;
     skill := skill p |}.

Definition set_city (v : option string) (p : t) : t :=
  {| keyword := keyword p; city := v; schedule_type := schedule_type p;
     age_minimum := age_minimum p; group_friendly := group_friendly p;
     skill := skill p |}.

Definition set_schedule_type (v : option ScheduleType) (p : t) : t :=
  {| keyword := keyword p; city := city p; schedule_type := v;
     age_minimum := age_minimum p; group_friendly := group_friendly p;
     skill := skill p |}.

Definition set_age_minimum (v : option Z) (p : t) : t :=
  {| keyword := keyword p; city := city p; schedule_type := schedule_type p;
     age_minimum := v; group_friendly := group_friendly p;
     skill := skill p |}.

Definition set_group_friendly (v : option bool) (p : t) : t :=
  {| keyword := keyword p; city := city p; schedule_type := schedule_type p;
     age_minimum := age_minimum p; group_friendly := v;
     skill := skill p |}.

Definition set_skill (v : option string) (p : t) : t :=
  {| keyword := keyword p; city := city p; schedule_type := schedule_type p;
     age_minimum := age_minimum p; group_friendly := group_friendly p;
     skill := v |}.
End Params.

(** The six criteria of the search. *)
Inductive Criterion :=
| Keyword | City | ScheduleKind | AgeMinimum | GroupFriendly | Skill.

(** The call that supplies criterion [c] as [p] does and nothing else. *)
Definition only (c : Criterion) (p : Params.t) : Params.t :=
  match c with
  | Keyword => Params.set_keyword (Params.keyword p) Params.none
  | City => Params.set_city (Params.city p) Params.none
  | ScheduleKind => Params.set_schedule_type (Params.schedule_type p) Params.none
  | AgeMinimum => Params.set_age_minimum (Params.age_minimum p) Params.none
  | GroupFriendly => Params.set_group_friendly (Params.group_friendly p) Params.none
  | Skill => Params.set_skill (Params.skill p) Params.none
  end.

(** The call [p] with criterion [c] left out. *)
Definition clear (c : Criterion) (p : Params.t) : Params.t :=
  match c with
  | Keyword => Params.set_keyword None p
  | City => Params.set_city None p
  | ScheduleKind => Params.set_schedule_type None p
  | AgeMinimum => Params.set_age_minimum None p
  | GroupFriendly => Params.set_group_friendly None p
  | Skill => Params.set_skill None p
  end.

(** ** The filters of [get_volunteer_opportunities] *)

Section Filters.
Variable params : Params.t.

(** The callback of each [opportunities.filter(...)]. *)

Definition keyword_callback (kw : string) (opp : Opportunity.t) : bool :=
  includes (toLowerCase (Opportunity.title opp)) kw
  || includes (toLowerCase (Opportunity.description opp)) kw.

Definition city_callback (city : string) (opp : Opportunity.t) : bool :=
  includes (toLowerCase (Location.city (Opportunity.location opp))) city.

Definition schedule_callback (t : ScheduleType) (opp : Opportunity.t)
  : bool :=
  (Schedule.type (Opportunity.schedule opp) =? schedule_type_string t)%string.

Definition age_callback (a : Z) (opp : Opportunity.t) : bool :=
  (Requirements.age_minimum (Opportunity.requirements opp) <=? a)%Z.

Definition group_callback (g : bool) (opp : Opportunity.t) : bool :=
  Bool.eqb (Requirements.group_friendly (Opportunity.requirements opp)) g.

Definition skill_callback (skill : string) (opp : Opportunity.t) : bool :=
  existsb (fun s => includes (toLowerCase s) skill)
    (Requirements.skills (Opportunity.requirements opp)).

(** [if (params.keyword) { ... }] *)
Definition filter_keyword (opportunities : list Opportunity.t) :=
  match Params.keyword params with
  | Some k =>
      if truthy k then
        let kw := toLowerCase k in
        List.filter (keyword_callback kw) opportunities
      else opportunities
  | None => opportunities
  end.

(** [if (params.city) { ... }] *)
Definition filter_city (opportunities : list Opportunity.t) :=
  match Params.city params with
  | Some c =>
      if truthy c then
        let city := toLowerCase c in
        List.filter (city_callback city) opportunities
      else opportunities
  | None => opportunities
  end.

(** [if (params.schedule_type) { ... }]: the four values of the enum are
    non-empty strings, so a supplied value is always truthy. *)
Definition filter_schedule_type (opportunities : list Opportunity.t) :=
  match Params.schedule_type params with
  | Some t =>
      if truthy (schedule_type_string t) then
        List.filter (schedule_callback t) opportunities
      else opportunities
  | None => opportunities
  end.

(** [if (params.age_minimum !== undefined) { ... }] *)
Definition filter_age_minimum (opportunities : list Opportunity.t) :=
  match Params.age_minimum params with
  | Some a => List.filter (age_callback a) opportunities
  | None => opportunities
  end.

(** [if (params.group_friendly !== undefined) { ... }] *)
Definition filter_group_friendly (opportunities : list Opportunity.t) :=
  match Params.group_friendly params with
  | Some g => List.filter (group_callback g) opportunities
  | None => opportunities
  end.

(** [if (params.skill) { ... }] *)
Definition filter_skill (opportunities : list Opportunity.t) :=
  match Params.skill params with
  | Some s =>
      if truthy s then
        let skill := toLowerCase s in
        List.filter (skill_callback skill) opportunities
      else opportunities
  | None => opportunities
  end.

(** The six reassignments of [opportunities], in the order of the source. *)
Definition apply_filters (opportunities : list Opportunity.t)
  : list Opportunity.t :=
  let opportunities := filter_keyword opportunities in
  let opportunities := filter_city opportunities in
  let opportunities := filter_schedule_type opportunities in
  let opportunities := filter_age_minimum opportunities in
  let opportunities := filter_group_friendly opportunities in
  let opportunities := filter_skill opportunities in
  opportunities.
End Filters.

(** What each criterion asks of one opportunity, in the terms of the
    callbacks above. A criterion that is not supplied asks nothing, and so
    does a string criterion supplied as the empty string. *)
Definition when_supplied {A : Type} (v : option A) (test : A -> bool) : bool :=
  match v with
  | Some a => test a
  | None => true
  end.

Definition when_nonempty (v : option string) (test : string -> bool) : bool :=
  when_supplied v (fun s => if truthy s then test s else true).

Definition satisfies (c : Criterion) (p : Params.t) (opp : Opportunity.t)
  : bool :=
  match c with
  | Keyword =>
      when_nonempty (Params.keyword p)
        (fun k => keyword_callback (toLowerCase k) opp)
  | City =>
      when_nonempty (Params.city p) (fun c => city_callback (toLowerCase c) opp)
  | ScheduleKind =>
      when_supplied (Params.schedule_type p) (fun t => schedule_callback t opp)
  | AgeMinimum =>
      when_supplied (Params.age_minimum p) (fun a => age_callback a opp)
  | GroupFriendly =>
      when_supplied (Params.group_friendly p) (fun g => group_callback g opp)
  | Skill =>
      when_nonempty (Params.skill p) (fun s => skill_callback (toLowerCase s) opp)
  end.

Definition criteria : list Criterion :=
  [ Keyword; City; ScheduleKind; AgeMinimum; GroupFriendly; Skill ].

Definition satisfies_all (p : Params.t) (opp : Opportunity.t) : bool :=
  forallb (fun c => satisfies c p opp) criteria.

(** The keyword criterion as the specification words it: the lower-cased
    keyword occurs in the lower-cased concatenation of title and
    description. *)
Definition keyword_in_concatenation (keyword : string) (opp : Opportunity.t)
  : bool :=
  includes (toLowerCase (Opportunity.title opp +:+ Opportunity.description opp))
    (toLowerCase keyword).

(** ** The response of [get_volunteer_opportunities] *)

(** [opp.requirements.max_group_size || "N/A"] *)
Definition max_group_size_text (m : option Z) : string :=
  match m with
  | Some n => if (n =? 0)%Z then "N/A" else show_number n
  | None => "N/A"
  end.

(** The paragraph of one opportunity in the text summary. *)
Definition opportunity_paragraph (opp : Opportunity.t) (idx : nat) : string :=
  let req := Opportunity.requirements opp in
  show_number (Z.of_nat idx + 1) +:+ ". **" +:+ Opportunity.title opp +:+ "** - "
    +:+ Location.city (Opportunity.location opp) +:+ nl
  +:+ "   " +:+ Opportunity.description opp +:+ nl
  +:+ "   Schedule: " +:+ Schedule.details (Opportunity.schedule opp) +:+ nl
  +:+ "   Age: " +:+ show_number (Requirements.age_minimum req) +:+ "+"
  +:+ (if Requirements.group_friendly req
       then " | Group-friendly (max "
              +:+ max_group_size_text (Requirements.max_group_size req) +:+ ")"
       else "")
  +:+ (if (0 <? length (Requirements.skills req))%nat
       then " | Skills: " +:+ join (Requirements.skills req) ", "
       else "")
  +:+ nl
  +:+ "   Contact: " +:+ Contact.email (Opportunity.contact opp) +:+ " | "
    +:+ Contact.phone (Opportunity.contact opp) +:+ nl
  +:+ (match Opportunity.signup_url opp with
       | Some u => if truthy u then "   Sign up: " +:+ u +:+ nl else ""
       | None => ""
       end).

(** The volunteer contact as the handlers spell it out in their fixed
    texts. *)
Definition volunteer_contact_email : string := "volunteer@cctwincities.org".
Definition volunteer_contact_phone : string := "(612) 204-8435".

Definition no_match_text : string :=
  "No volunteer opportunities match your criteria. Try adjusting your filters or contact volunteer@cctwincities.org at (612) 204-8435 for more options.".

(** [textSummary] *)
Definition textSummary (main_contact : Contact.t)
  (opportunities : list Opportunity.t) : string :=
  if (length opportunities =? 0)%nat then no_match_text
  else
    "Found " +:+ show_number (Z.of_nat (length opportunities))
      +:+ " volunteer opportunit"
      +:+ (if (length opportunities =? 1)%nat then "y" else "ies")
      +:+ ":" +:+ nl +:+ nl
    +:+ join (map_idx opportunity_paragraph 0 opportunities) nl
    +:+ nl +:+ "**General volunteer contact:** "
      +:+ Contact.email main_contact +:+ " | " +:+ Contact.phone main_contact.

(** The object literal built by [opportunities.map((opp) => ({ ... }))]. *)
Definition copy_opportunity (opp : Opportunity.t) : Opportunity.t :=
  {| Opportunity.id := Opportunity.id opp;
     Opportunity.title := Opportunity.title opp;
     Opportunity.description := Opportunity.description opp;
     Opportunity.location := Opportunity.location opp;
     Opportunity.schedule := Opportunity.schedule opp;
     Opportunity.requirements := Opportunity.requirements opp;
     Opportunity.contact := Opportunity.contact opp;
     Opportunity.signup_url := Opportunity.signup_url opp;
     Opportunity.source_url := Opportunity.source_url opp |}.

Definition volunteer_meta : Meta.t :=
  {| Meta.outputTemplate := "ui://widget/volunteer-list.html";
     Meta.widgetAccessible := true;
     Meta.widgetDescription :=
       "Interactive volunteer opportunities list for Catholic Charities Twin Cities. Displays opportunities with filtering by location (Minneapolis, St. Paul, Maplewood), schedule type, age requirements, and skills. Shows opportunity details including title, description, address, schedule, age requirements, group capacity, required skills, contact info (phone/email), and signup links. Users can email volunteer coordinators or sign up directly through provided links. Helps users find and register for volunteer opportunities serving homeless individuals, families in need, meal service, warehouse work, and other community service activities across Twin Cities metro area." |}.

(** The handler of [get_volunteer_opportunities] on typed data, where no
    property access can fail. *)
Definition get_volunteer_opportunities (ccData : CCData.t) (params : Params.t)
  : ToolResult.t :=
  let volunteer := CCData.volunteer ccData in
  let opportunities :=
    apply_filters params (Volunteer.opportunities volunteer) in
  let main_contact := GeneralInfo.main_contact (Volunteer.general_info volunteer) in
  let structuredContent :=
    {| StructuredContent.opportunities := map copy_opportunity opportunities;
       StructuredContent.contact := main_contact |} in
  {| ToolResult.content :=
       [ {| TextContent.type := "text";
            TextContent.text := textSummary main_contact opportunities |} ];
     ToolResult.structuredContent := Some structuredContent;
     ToolResult._meta := Some volunteer_meta |}.

(** The opportunity list of a result, empty when the result has no
    structured content. *)
Definition returned_opportunities (r : ToolResult.t) : list Opportunity.t :=
  match ToolResult.structuredContent r with
  | Some s => StructuredContent.opportunities s
  | None => []
  end.

(** The text of the first content item of a result. *)
Definition result_text (r : ToolResult.t) : string :=
  match ToolResult.content r with
  | item :: _ => TextContent.text item
  | [] => ""
  end.

(** The opportunity search: the list the handler returns for [params]. *)
Definition search (ccData : CCData.t) (params : Params.t)
  : list Opportunity.t :=
  returned_opportunities (get_volunteer_opportunities ccData params).

(** ** [get_donation_options] *)

(** [z.enum(["online", "in_kind", "vehicle"])] *)
Module DonationType.
Inductive t := online | in_kind | vehicle.

Definition to_string (d : t) : string :=
  match d with
  | online => "online"
  | in_kind => "in_kind"
  | vehicle => "vehicle"
  end.
End DonationType.

(** [GetDonationOptionsSchema]: what the validation of the [type] argument
    accepts. A value outside the enum is refused, [None]. *)
Definition GetDonationOptionsSchema (type : string) : option DonationType.t :=
  if (type =? "online")%string then Some DonationType.online
  else if (type =? "in_kind")%string then Some DonationType.in_kind
  else if (type =? "vehicle")%string then Some DonationType.vehicle
  else None.

Definition bullet_list (l : list string) : string :=
  join (map (fun t => "• " +:+ t) l) nl.

(** The branch [donationType === "online"]. *)
Definition online_text (donationData : OnlineDonation.t) : string :=
  "**Online Donations to Catholic Charities Twin Cities**" +:+ nl +:+ nl
  +:+ "Donate securely online at: "
    +:+ OnlineDonation.donation_page_url donationData +:+ nl +:+ nl
  +:+ "**Donation Types:**" +:+ nl
    +:+ bullet_list (OnlineDonation.types donationData) +:+ nl +:+ nl
  +:+ OnlineDonation.notes donationData +:+ nl +:+ nl
  +:+ "**Questions about giving?**" +:+ nl
  +:+ "Phone: " +:+ Contact.phone (OnlineDonation.contact donationData) +:+ nl
  +:+ "Email: " +:+ Contact.email (OnlineDonation.contact donationData).

(** The body of [accepted_items.forEach((cat) => ...)] for one category. *)
Definition accepted_item_text (cat : AcceptedItem.t) : string :=
  "**" +:+ AcceptedItem.category cat +:+ ":**" +:+ nl
    +:+ AcceptedItem.details cat +:+ nl
  +:+ (match AcceptedItem.restrictions cat with
       | Some r => if truthy r then "*" +:+ r +:+ "*" +:+ nl else ""
       | None => ""
       end)
  +:+ nl.

(** The body of [drop_off_locations.forEach((loc) => ...)]. *)
Definition drop_off_text (loc : DropOffLocation.t) : string :=
  DropOffLocation.name loc +:+ nl
  +:+ DropOffLocation.address loc +:+ nl
  +:+ "Hours: " +:+ DropOffLocation.hours loc +:+ nl
  +:+ "Phone: " +:+ DropOffLocation.phone loc +:+ nl
  +:+ "Email: " +:+ DropOffLocation.email loc +:+ nl +:+ nl.

(** The branch [donationType === "in_kind"]. *)
Definition in_kind_text (donationData : InKindDonation.t) : string :=
  "**In-Kind Donations to Catholic Charities Twin Cities**" +:+ nl +:+ nl
  +:+ "**Currently Accepting (NEW items only):**" +:+ nl +:+ nl
  +:+ String.concat ""
        (map accepted_item_text (InKindDonation.accepted_items donationData))
  +:+ "**NOT Accepted:**" +:+ nl
    +:+ bullet_list (InKindDonation.not_accepted donationData) +:+ nl +:+ nl
  +:+ "**Drop-Off Location:**" +:+ nl
  +:+ String.concat ""
        (map drop_off_text (InKindDonation.drop_off_locations donationData))
  +:+ "**Important Policies:**" +:+ nl
    +:+ bullet_list (InKindDonation.policies donationData) +:+ nl +:+ nl
  +:+ "View full wishlist: " +:+ InKindDonation.wishlist_url donationData.

(** The branch [donationType === "vehicle"]. *)
Definition vehicle_text (donationData : VehicleDonation.t) : string :=
  "**Vehicle Donation to Catholic Charities Twin Cities**" +:+ nl +:+ nl
  +:+ VehicleDonation.process_description donationData +:+ nl +:+ nl
  +:+ "**To donate your vehicle:**" +:+ nl
  +:+ "Phone: " +:+ VehicleDonation.phone donationData +:+ nl
  +:+ "Online: " +:+ VehicleDonation.program_url donationData +:+ nl +:+ nl
  +:+ "Vehicles accepted: cars, trucks, trailers, boats, RVs, motorcycles, and other motorized vehicles.".

(** The rendering of the section of one donation type. *)
Definition variant_text (donations : Donations.t) (t : DonationType.t)
  : string :=
  match t with
  | DonationType.online => online_text (Donations.online donations)
  | DonationType.in_kind => in_kind_text (Donations.in_kind donations)
  | DonationType.vehicle => vehicle_text (Donations.vehicle donations)
  end.

(** The arm of the [if]/[else if] chain that a value of [donationType]
    selects. The chain has no final [else]: on any other value no arm runs,
    [None], and [textContent] keeps its initial value. *)
Definition selected_branch (donationType : string) : option DonationType.t :=
  if (donationType =? "online")%string then Some DonationType.online
  else if (donationType =? "in_kind")%string then Some DonationType.in_kind
  else if (donationType =? "vehicle")%string then Some DonationType.vehicle
  else None.

(** [textContent] at the end of the chain. In the arm of a type,
    [donationData = ccData.donations[donationType]] is the section of that
    type. *)
Definition donation_textContent (donations : Donations.t)
  (donationType : string) : string :=
  match selected_branch donationType with
  | Some t => variant_text donations t
  | None => ""
  end.

(** The handler of [get_donation_options], on the [type] it is called with. *)
Definition get_donation_options (ccData : CCData.t) (type : string)
  : ToolResult.t :=
  ToolResult.text_only (donation_textContent (CCData.donations ccData) type).

(** A tool call as the server performs it: the arguments are validated
    against the schema first, and the handler runs only on accepted ones. *)
Inductive CallResult :=
| InvalidArguments
| Handled (r : ToolResult.t).

Definition call_get_donation_options (ccData : CCData.t) (type : string)
  : CallResult :=
  match GetDonationOptionsSchema type with
  | Some t => Handled (get_donation_options ccData (DonationType.to_string t))
  | None => InvalidArguments
  end.

(** ** [search_org_info] *)

(** [n.toLocaleString()] for an integer, in the [en-US] locale: the decimal
    digits in groups of three separated by commas. *)
Fixpoint group_digits (digits : string) (remaining : nat) (first : bool)
  : string :=
  match digits with
  | EmptyString => EmptyString
  | String c digits' =>
      (if negb first && (remaining mod 3 =? 0)%nat then "," else "")
      +:+ String c (group_digits digits' (remaining - 1) false)
  end.

Definition toLocaleString (n : Z) : string :=
  let digits := show_number (Z.abs n) in
  (if (n <? 0)%Z then "-" else "")
  +:+ group_digits digits (String.length digits) true.

(** One element of [results]. *)
Module Block.
Record t := { heading : string; summary : string; source_url : string }.
End Block.

Definition serviceKeywords : list string :=
  [ "service"; "program"; "help"; "support"; "shelter"; "housing"; "food";
    "meal"; "homeless"; "family"; "senior"; "disability"; "child" ].

Section OrgSearch.
Variable org : Organization.t.
(** [query] is [params.query.toLowerCase()]. *)
Variable query : string.

Definition block (heading summary : string) : Block.t :=
  {| Block.heading := heading;
     Block.summary := summary;
     Block.source_url := Organization.source_url org |}.

Definition mission_triggered : bool :=
  includes query "mission" || includes query "about"
  || includes query "what do" || includes query "purpose".

Definition mission_blocks : list Block.t :=
  let about := Organization.about org in
  [ block "Mission" (Organization.mission org);
    block "History"
      (About.history about +:+ " Founded in " +:+ show_number (About.founded about)
       +:+ ", Catholic Charities has served the Twin Cities for "
       +:+ show_number (Stats.years_operating (About.stats about))
       +:+ " years.") ].

Definition services_triggered : bool :=
  existsb (fun kw => includes query kw) serviceKeywords.

(** The callback of [ccData.organization.services.filter(...)]. *)
Definition service_matches (svc : Service.t) : bool :=
  let matchText :=
    toLowerCase (Service.name svc +:+ " " +:+ Service.description svc +:+ " "
                 +:+ join (Service.keywords svc) " ") in
  existsb (fun word => includes matchText word) (split_space query).

Definition service_blocks : list Block.t :=
  let matchingServices := List.filter service_matches (Organization.services org) in
  if (0 <? length matchingServices)%nat then
    map (fun svc => block (Service.name svc) (Service.description svc))
      matchingServices
  else
    [ block "Services Overview"
        ("Catholic Charities Twin Cities offers these core services:" +:+ nl +:+ nl
         +:+ join
               (map (fun svc => "• **" +:+ Service.name svc +:+ "**: "
                                +:+ Service.description svc)
                  (Organization.services org))
               (nl +:+ nl)) ].

Definition contact_triggered : bool :=
  includes query "contact" || includes query "phone" || includes query "email"
  || includes query "location" || includes query "address"
  || includes query "where".

Definition location_text (loc : OrgLocation.t) : string :=
  "**" +:+ OrgLocation.name loc +:+ "**" +:+ nl +:+ OrgLocation.address loc
  +:+ (match OrgLocation.phone loc with
       | Some p => if truthy p then nl +:+ "Phone: " +:+ p else ""
       | None => ""
       end).

Definition contact_blocks : list Block.t :=
  let contact := Organization.contact org in
  [ block "Contact Information"
      ("**Main Office:**" +:+ nl
       +:+ "Phone: " +:+ OrgContact.main_phone contact +:+ nl
       +:+ "Email: " +:+ OrgContact.main_email contact +:+ nl
       +:+ "Hours: " +:+ OrgContact.hours contact +:+ nl +:+ nl
       +:+ "**Volunteer inquiries:** volunteer@cctwincities.org | (612) 204-8435" +:+ nl
       +:+ "**Donation inquiries:** giving.info@cctwincities.org | (612) 204-8374");
    block "Locations"
      (join (map location_text (Organization.locations org)) (nl +:+ nl)) ].

Definition events_triggered : bool :=
  includes query "event" || includes query "calendar".

Definition event_text (evt : Event.t) : string :=
  "**" +:+ Event.name evt +:+ "** - " +:+ Event.date evt +:+ nl
  +:+ Event.description evt +:+ nl +:+ Event.url evt.

Definition events_blocks : list Block.t :=
  [ block "Upcoming Events"
      (join (map event_text (Organization.upcoming_events org)) (nl +:+ nl)) ].

Definition stats_triggered : bool :=
  includes query "stat" || includes query "impact"
  || includes query "how many" || includes query "number".

Definition stats_blocks : list Block.t :=
  let stats := About.stats (Organization.about org) in
  [ block "Impact & Statistics"
      ("Catholic Charities Twin Cities serves the community with significant impact:"
       +:+ nl +:+ nl
       +:+ "• **" +:+ toLocaleString (Stats.people_served_annually stats)
         +:+ "** people served annually" +:+ nl
       +:+ "• **" +:+ toLocaleString (Stats.meals_served_annually stats)
         +:+ "** meals served annually" +:+ nl
       +:+ "• **" +:+ toLocaleString (Stats.nights_of_housing_provided_annually stats)
         +:+ "** nights of housing provided annually" +:+ nl
       +:+ "• **" +:+ toLocaleString (Stats.volunteers_annually stats)
         +:+ "** volunteers annually" +:+ nl
       +:+ "• **" +:+ toLocaleString (Stats.volunteer_hours_annually stats)
         +:+ "+** volunteer hours annually" +:+ nl
       +:+ "• **" +:+ show_number (Stats.years_operating stats)
         +:+ "** years serving the Twin Cities") ].

Definition default_blocks : list Block.t :=
  [ block "About Catholic Charities Twin Cities"
      (Organization.mission org +:+ nl +:+ nl
       +:+ "Serving the " +:+ Organization.service_area org +:+ " since "
       +:+ show_number (About.founded (Organization.about org)) +:+ "." +:+ nl +:+ nl
       +:+ "Contact: " +:+ OrgContact.main_phone (Organization.contact org)
       +:+ " | " +:+ OrgContact.main_email (Organization.contact org)) ].

(** [results] after the five category tests and the default, each
    [results.push(...)] appending at the end. *)
Definition org_results : list Block.t :=
  let results := [] in
  let results := if mission_triggered then results ++ mission_blocks else results in
  let results := if services_triggered then results ++ service_blocks else results in
  let results := if contact_triggered then results ++ contact_blocks else results in
  let results := if events_triggered then results ++ events_blocks else results in
  let results := if stats_triggered then results ++ stats_blocks else results in
  let results :=
    if (length results =? 0)%nat then results ++ default_blocks else results in
  results.
End OrgSearch.

Definition block_text (result : Block.t) : string :=
  "**" +:+ Block.heading result +:+ "**" +:+ nl +:+ nl
  +:+ Block.summary result +:+ nl +:+ nl
  +:+ "Source: " +:+ Block.source_url result.

Definition org_separator : string :=
  nl +:+ nl +:+ "---" +:+ nl +:+ nl.

(** [results] of the handler for the raw [params.query]. *)
Definition search_org_info_results (ccData : CCData.t) (query : string)
  : list Block.t :=
  org_results (CCData.organization ccData) (toLowerCase query).

(** The handler of [search_org_info]. *)
Definition search_org_info (ccData : CCData.t) (query : string) : ToolResult.t :=
  ToolResult.text_only
    (join (map block_text (search_org_info_results ccData query)) org_separator).

(** ** The handlers on records with missing fields

    [ccData] is the untyped result of [JSON.parse]; the start-up check only
    makes sure that [volunteer], [donations] and [organization] are there and
    that [volunteer.opportunities] is an array. [Module Raw] models the
    handlers on documents shaped like [CC.json] in which any other property
    may be absent ([None], JavaScript's [undefined]). Reading a property or
    calling a method of [undefined] throws a [TypeError]; an absent value in
    a template literal prints as [undefined]; compared with [<=] or [===] it
    gives [false]. A minimum age may also be [null], which [<=] takes for 0
    and a template literal prints as [null]. Each handler runs its body
    inside [try] and answers from [catch] when the body throws. *)

Module Raw.

(** A thrown value. *)
Inductive exn := TypeError (message : string).

(** A computation that returns a value or throws. *)
Definition M : Type -> Type := sum exn.

#[global] Instance M_ret : MRet M := fun A a => inr a.

#[global] Instance M_bind : MBind M :=
  fun A B k m => match m with inl e => inl e | inr a => k a end.

Definition throw {A : Type} (e : exn) : M A := inl e.

(** [v.name] or [v.name(...)], where [v] may be [undefined]. *)
Definition read {A : Type} (v : option A) (name : string) : M A :=
  match v with
  | Some a => mret a
  | None =>
      throw (TypeError
               ("Cannot read properties of undefined (reading '" +:+ name +:+ "')"))
  end.

(** [`${v}`] *)
Definition display (v : option string) : string :=
  match v with Some s => s | None => "undefined" end.

Definition display_number (v : option Z) : string :=
  match v with Some n => show_number n | None => "undefined" end.

(** A property as JSON can hold it: absent ([undefined]), [null], or a
    value. *)
Inductive Nullable (A : Type) :=
| Absent
| Null
| Present (a : A).

Arguments Absent {A}.
Arguments Null {A}.
Arguments Present {A} a.

(** [`${v}`] for a number that may be absent or [null]. *)
Definition display_nullable (v : Nullable Z) : string :=
  match v with
  | Absent => "undefined"
  | Null => "null"
  | Present n => show_number n
  end.

(** [v <= a]: [undefined] converts to [NaN] and compares false, [null]
    converts to 0. *)
Definition le_number (v : Nullable Z) (a : Z) : bool :=
  match v with
  | Absent => false
  | Null => (0 <=? a)%Z
  | Present m => (m <=? a)%Z
  end.

(** [l.filter(f)], [l.map(f)] with a callback that may throw: the elements
    are visited from the left and the first throw ends the loop. *)
Fixpoint filterM {A : Type} (f : A -> M bool) (l : list A) : M (list A) :=
  match l with
  | [] => mret []
  | x :: l' =>
      b ← f x;
      r ← filterM f l';
      mret (if b : bool then x :: r else r)
  end.

Fixpoint mapM_idx {A B : Type} (f : A -> nat -> M B) (idx : nat) (l : list A)
  : M (list B) :=
  match l with
  | [] => mret []
  | x :: l' =>
      y ← f x idx;
      r ← mapM_idx f (S idx) l';
      mret (y :: r)
  end.

Definition mapM {A B : Type} (f : A -> M B) (l : list A) : M (list B) :=
  mapM_idx (fun x _ => f x) 0 l.

(** *** Records *)

Module Contact.
Record t := { phone : option string; email : option string }.
End Contact.

Module Location.
Record t := {
  city : option string;
  facility : option string;
  address : option string
}.
End Location.

Module Schedule.
Record t := { type : option string; details : option string }.
End Schedule.

Module Requirements.
Record t := {
  age_minimum : Nullable Z;
  background_check : option bool;
  skills : option (list string);
  group_friendly : option bool;
  max_group_size : option Z
}.
End Requirements.

Module Opportunity.
Record t := {
  id : option string;
  title : option string;
  description : option string;
  location : option Location.t;
  schedule : option Schedule.t;
  requirements : option Requirements.t;
  contact : option Contact.t;
  signup_url : option string;
  source_url : option string
}.
End Opportunity.

Module GeneralInfo.
Record t := { main_contact : option Contact.t }.
End GeneralInfo.

Module Volunteer.
Record t := {
  opportunities : list Opportunity.t;
  general_info : option GeneralInfo.t
}.
End Volunteer.

Module OnlineDonation.
Record t := {
  donation_page_url : option string;
  types : option (list string);
  notes : option string;
  contact : option Contact.t
}.
End OnlineDonation.

Module AcceptedItem.
Record t := {
  category : option string;
  details : option string;
  restrictions : option string
}.
End AcceptedItem.

Module DropOffLocation.
Record t := {
  name : option string;
  address : option string;
  hours : option string;
  phone : option string;
  email : option string
}.
End DropOffLocation.

Module InKindDonation.
Record t := {
  accepted_items : option (list AcceptedItem.t);
  not_accepted : option (list string);
  drop_off_locations : option (list DropOffLocation.t);
  policies : option (list string);
  wishlist_url : option string
}.
End InKindDonation.

Module VehicleDonation.
Record t := {
  process_description : option string;
  phone : option string;
  program_url : option string
}.
End VehicleDonation.

Module Donations.
Record t := {
  online : option OnlineDonation.t;
  in_kind : option InKindDonation.t;
  vehicle : option VehicleDonation.t
}.
End Donations.

Module Stats.
Record t := {
  people_served_annually : option Z;
  meals_served_annually : option Z;
  nights_of_housing_provided_annually : option Z;
  volunteers_annually : option Z;
  volunteer_hours_annually : option Z;
  years_operating : option Z
}.
End Stats.

Module About.
Record t := {
  history : option string;
  founded : option Z;
  stats : option Stats.t
}.
End About.

Module Service.
Record t := {
  name : option string;
  description : option string;
  keywords : option (list string)
}.
End Service.

Module OrgLocation.
Record t := {
  name : option string;
  address : option string;
  phone : option string
}.
End OrgLocation.

Module Event.
Record t := {
  name : option string;
  date : option string;
  description : option string;
  url : option string
}.
End Event.

Module OrgContact.
Record t := {
  main_phone : option string;
  main_email : option string;
  hours : option string
}.
End OrgContact.

Module Organization.
Record t := {
  mission : option string;
  about : option About.t;
  services : option (list Service.t);
  locations : option (list OrgLocation.t);
  upcoming_events : option (list Event.t);
  contact : option OrgContact.t;
  service_area : option string;
  source_url : option string
}.
End Organization.

Module CCData.
Record t := {
  volunteer : Volunteer.t;
  donations : Donations.t;
  organization : Organization.t
}.
End CCData.

Module StructuredContent.
Record t := {
  opportunities : list Opportunity.t;
  contact : option Contact.t
}.
End StructuredContent.

Module ToolResult.
Record t := {
  content : list TextContent.t;
  structuredContent : option StructuredContent.t;
  _meta : option Meta.t
}.

Definition text_only (text : string) : t :=
  {| content := [ {| TextContent.type := "text"; TextContent.text := text |} ];
     structuredContent := None;
     _meta := None |}.
End ToolResult.

(** What a call leaves behind: the value the handler returns and the lines
    it wrote with [console.error]. *)
Module Outcome.
Record t := {
  result : ToolResult.t;
  console : list (string * exn)
}.
End Outcome.

(** What a catch leaves behind: the apology as the only content, and the
    thrown value on the console. *)
Definition caught (label : string) (error : exn) (apology : string)
  : Outcome.t :=
  {| Outcome.result := ToolResult.text_only apology;
     Outcome.console := [ (label, error) ] |}.

(** [try { body } catch (error) { console.error(label, error); return {
    content: [{ type: "text", text: apology }] } }] *)
Definition try_catch (body : M ToolResult.t) (label apology : string)
  : Outcome.t :=
  match body with
  | inr r => {| Outcome.result := r; Outcome.console := [] |}
  | inl error => caught label error apology
  end.

(** *** [get_volunteer_opportunities] *)

Section RawFilters.
Variable params : Params.t.

Definition keyword_callback (kw : string) (opp : Opportunity.t) : M bool :=
  title ← read (Opportunity.title opp) "toLowerCase";
  if includes (toLowerCase title) kw then mret true
  else
    description ← read (Opportunity.description opp) "toLowerCase";
    mret (includes (toLowerCase description) kw).

Definition city_callback (city : string) (opp : Opportunity.t) : M bool :=
  location ← read (Opportunity.location opp) "city";
  c ← read (Location.city location) "toLowerCase";
  mret (includes (toLowerCase c) city).

Definition schedule_callback (t : ScheduleType) (opp : Opportunity.t)
  : M bool :=
  schedule ← read (Opportunity.schedule opp) "type";
  mret (match Schedule.type schedule with
        | Some s => (s =? schedule_type_string t)%string
        | None => false
        end).

Definition age_callback (a : Z) (opp : Opportunity.t) : M bool :=
  requirements ← read (Opportunity.requirements opp) "age_minimum";
  mret (le_number (Requirements.age_minimum requirements) a).

Definition group_callback (g : bool) (opp : Opportunity.t) : M bool :=
  requirements ← read (Opportunity.requirements opp) "group_friendly";
  mret (match Requirements.group_friendly requirements with
        | Some b => Bool.eqb b g
        | None => false
        end).

Definition skill_callback (skill : string) (opp : Opportunity.t) : M bool :=
  requirements ← read (Opportunity.requirements opp) "skills";
  skills ← read (Requirements.skills requirements) "some";
  mret (existsb (fun s => includes (toLowerCase s) skill) skills).

Definition filter_keyword (opportunities : list Opportunity.t)
  : M (list Opportunity.t) :=
  match Params.keyword params with
  | Some k =>
      if truthy k then
        let kw := toLowerCase k in
        filterM (keyword_callback kw) opportunities
      else mret opportunities
  | None => mret opportunities
  end.

Definition filter_city (opportunities : list Opportunity.t)
  : M (list Opportunity.t) :=
  match Params.city params with
  | Some c =>
      if truthy c then
        let city := toLowerCase c in
        filterM (city_callback city) opportunities
      else mret opportunities
  | None => mret opportunities
  end.

Definition filter_schedule_type (opportunities : list Opportunity.t)
  : M (list Opportunity.t) :=
  match Params.schedule_type params with
  | Some t =>
      if truthy (schedule_type_string t) then
        filterM (schedule_callback t) opportunities
      else mret opportunities
  | None => mret opportunities
  end.

Definition filter_age_minimum (opportunities : list Opportunity.t)
  : M (list Opportunity.t) :=
  match Params.age_minimum params with
  | Some a => filterM (age_callback a) opportunities
  | None => mret opportunities
  end.

Definition filter_group_friendly (opportunities : list Opportunity.t)
  : M (list Opportunity.t) :=
  match Params.group_friendly params with
  | Some g => filterM (group_callback g) opportunities
  | None => mret opportunities
  end.

Definition filter_skill (opportunities : list Opportunity.t)
  : M (list Opportunity.t) :=
  match Params.skill params with
  | Some s =>
      if truthy s then
        let skill := toLowerCase s in
        filterM (skill_callback skill) opportunities
      else mret opportunities
  | None => mret opportunities
  end.

Definition apply_filters (opportunities : list Opportunity.t)
  : M (list Opportunity.t) :=
  opportunities ← filter_keyword opportunities;
  opportunities ← filter_city opportunities;
  opportunities ← filter_schedule_type opportunities;
  opportunities ← filter_age_minimum opportunities;
  opportunities ← filter_group_friendly opportunities;
  filter_skill opportunities.
End RawFilters.

Definition copy_opportunity (opp : Opportunity.t) : Opportunity.t :=
  {| Opportunity.id := Opportunity.id opp;
     Opportunity.title := Opportunity.title opp;
     Opportunity.description := Opportunity.description opp;
     Opportunity.location := Opportunity.location opp;
     Opportunity.schedule := Opportunity.schedule opp;
     Opportunity.requirements := Opportunity.requirements opp;
     Opportunity.contact := Opportunity.contact opp;
     Opportunity.signup_url := Opportunity.signup_url opp;
     Opportunity.source_url := Opportunity.source_url opp |}.

(** [cond ? text(s) : ""] for a string that may be absent or empty. *)
Definition if_truthy (v : option string) (text : string -> string) : string :=
  match v with
  | Some s => if truthy s then text s else ""
  | None => ""
  end.

Definition opportunity_paragraph (opp : Opportunity.t) (idx : nat) : M string :=
  location ← read (Opportunity.location opp) "city";
  schedule ← read (Opportunity.schedule opp) "details";
  req ← read (Opportunity.requirements opp) "age_minimum";
  skills ← read (Requirements.skills req) "length";
  contact ← read (Opportunity.contact opp) "email";
  mret
    (show_number (Z.of_nat idx + 1) +:+ ". **" +:+ display (Opportunity.title opp)
       +:+ "** - " +:+ display (Location.city location) +:+ nl
     +:+ "   " +:+ display (Opportunity.description opp) +:+ nl
     +:+ "   Schedule: " +:+ display (Schedule.details schedule) +:+ nl
     +:+ "   Age: " +:+ display_nullable (Requirements.age_minimum req) +:+ "+"
     +:+ (match Requirements.group_friendly req with
          | Some true =>
              " | Group-friendly (max "
                +:+ max_group_size_text (Requirements.max_group_size req) +:+ ")"
          | _ => ""
          end)
     +:+ (if (0 <? length skills)%nat
          then " | Skills: " +:+ join skills ", "
          else "")
     +:+ nl
     +:+ "   Contact: " +:+ display (Contact.email contact) +:+ " | "
       +:+ display (Contact.phone contact) +:+ nl
     +:+ if_truthy (Opportunity.signup_url opp)
           (fun u => "   Sign up: " +:+ u +:+ nl)).

Definition textSummary (volunteer : Volunteer.t)
  (opportunities : list Opportunity.t) : M string :=
  if (length opportunities =? 0)%nat then mret no_match_text
  else
    paragraphs ← mapM_idx opportunity_paragraph 0 opportunities;
    general_info ← read (Volunteer.general_info volunteer) "main_contact";
    main_contact ← read (GeneralInfo.main_contact general_info) "email";
    mret
      ("Found " +:+ show_number (Z.of_nat (length opportunities))
         +:+ " volunteer opportunit"
         +:+ (if (length opportunities =? 1)%nat then "y" else "ies")
         +:+ ":" +:+ nl +:+ nl
       +:+ join paragraphs nl
       +:+ nl +:+ "**General volunteer contact:** "
         +:+ display (Contact.email main_contact) +:+ " | "
         +:+ display (Contact.phone main_contact)).

(** The statements inside [try]. *)
Definition get_volunteer_opportunities_body (ccData : CCData.t)
  (params : Params.t) : M ToolResult.t :=
  let volunteer := CCData.volunteer ccData in
  opportunities ← apply_filters params (Volunteer.opportunities volunteer);
  general_info ← read (Volunteer.general_info volunteer) "main_contact";
  let structuredContent :=
    {| StructuredContent.opportunities := map copy_opportunity opportunities;
       StructuredContent.contact := GeneralInfo.main_contact general_info |} in
  text ← textSummary volunteer opportunities;
  mret
    {| ToolResult.content :=
         [ {| TextContent.type := "text"; TextContent.text := text |} ];
       ToolResult.structuredContent := Some structuredContent;
       ToolResult._meta := Some volunteer_meta |}.

Definition volunteer_apology : string :=
  "Sorry, an error occurred while searching for volunteer opportunities. Please try again or contact volunteer@cctwincities.org at (612) 204-8435.".

Definition get_volunteer_opportunities (ccData : CCData.t) (params : Params.t)
  : Outcome.t :=
  try_catch (get_volunteer_opportunities_body ccData params)
    "Error in get_volunteer_opportunities:" volunteer_apology.

(** *** [get_donation_options] *)

Definition online_text (donationData : option OnlineDonation.t) : M string :=
  d ← read donationData "donation_page_url";
  types ← read (OnlineDonation.types d) "map";
  contact ← read (OnlineDonation.contact d) "phone";
  mret
    ("**Online Donations to Catholic Charities Twin Cities**" +:+ nl +:+ nl
     +:+ "Donate securely online at: "
       +:+ display (OnlineDonation.donation_page_url d) +:+ nl +:+ nl
     +:+ "**Donation Types:**" +:+ nl +:+ bullet_list types +:+ nl +:+ nl
     +:+ display (OnlineDonation.notes d) +:+ nl +:+ nl
     +:+ "**Questions about giving?**" +:+ nl
     +:+ "Phone: " +:+ display (Contact.phone contact) +:+ nl
     +:+ "Email: " +:+ display (Contact.email contact)).

Definition accepted_item_text (cat : AcceptedItem.t) : string :=
  "**" +:+ display (AcceptedItem.category cat) +:+ ":**" +:+ nl
    +:+ display (AcceptedItem.details cat) +:+ nl
  +:+ if_truthy (AcceptedItem.restrictions cat) (fun r => "*" +:+ r +:+ "*" +:+ nl)
  +:+ nl.

Definition drop_off_text (loc : DropOffLocation.t) : string :=
  display (DropOffLocation.name loc) +:+ nl
  +:+ display (DropOffLocation.address loc) +:+ nl
  +:+ "Hours: " +:+ display (DropOffLocation.hours loc) +:+ nl
  +:+ "Phone: " +:+ display (DropOffLocation.phone loc) +:+ nl
  +:+ "Email: " +:+ display (DropOffLocation.email loc) +:+ nl +:+ nl.

Definition in_kind_text (donationData : option InKindDonation.t) : M string :=
  d ← read donationData "accepted_items";
  accepted_items ← read (InKindDonation.accepted_items d) "forEach";
  not_accepted ← read (InKindDonation.not_accepted d) "map";
  drop_off_locations ← read (InKindDonation.drop_off_locations d) "forEach";
  policies ← read (InKindDonation.policies d) "map";
  mret
    ("**In-Kind Donations to Catholic Charities Twin Cities**" +:+ nl +:+ nl
     +:+ "**Currently Accepting (NEW items only):**" +:+ nl +:+ nl
     +:+ String.concat "" (map accepted_item_text accepted_items)
     +:+ "**NOT Accepted:**" +:+ nl +:+ bullet_list not_accepted +:+ nl +:+ nl
     +:+ "**Drop-Off Location:**" +:+ nl
     +:+ String.concat "" (map drop_off_text drop_off_locations)
     +:+ "**Important Policies:**" +:+ nl +:+ bullet_list policies +:+ nl +:+ nl
     +:+ "View full wishlist: " +:+ display (InKindDonation.wishlist_url d)).

Definition vehicle_text (donationData : option VehicleDonation.t) : M string :=
  d ← read donationData "process_description";
  mret
    ("**Vehicle Donation to Catholic Charities Twin Cities**" +:+ nl +:+ nl
     +:+ display (VehicleDonation.process_description d) +:+ nl +:+ nl
     +:+ "**To donate your vehicle:**" +:+ nl
     +:+ "Phone: " +:+ display (VehicleDonation.phone d) +:+ nl
     +:+ "Online: " +:+ display (VehicleDonation.program_url d) +:+ nl +:+ nl
     +:+ "Vehicles accepted: cars, trucks, trailers, boats, RVs, motorcycles, and other motorized vehicles.").

Definition donation_textContent (donations : Donations.t)
  (donationType : string) : M string :=
  match selected_branch donationType with
  | Some DonationType.online => online_text (Donations.online donations)
  | Some DonationType.in_kind => in_kind_text (Donations.in_kind donations)
  | Some DonationType.vehicle => vehicle_text (Donations.vehicle donations)
  | None => mret ""
  end.

Definition get_donation_options_body (ccData : CCData.t) (type : string)
  : M ToolResult.t :=
  textContent ← donation_textContent (CCData.donations ccData) type;
  mret (ToolResult.text_only textContent).

Definition donation_apology : string :=
  "Sorry, an error occurred while getting donation information. Please contact giving.info@cctwincities.org at (612) 204-8374.".

Definition get_donation_options (ccData : CCData.t) (type : string)
  : Outcome.t :=
  try_catch (get_donation_options_body ccData type)
    "Error in get_donation_options:" donation_apology.

(** *** [search_org_info] *)

Module Block.
Record t := {
  heading : option string;
  summary : option string;
  source_url : option string
}.
End Block.

Section RawOrgSearch.
Variable org : Organization.t.
Variable query : string.

Definition block (heading summary : option string) : Block.t :=
  {| Block.heading := heading;
     Block.summary := summary;
     Block.source_url := Organization.source_url org |}.

Definition mission_blocks : M (list Block.t) :=
  about ← read (Organization.about org) "history";
  stats ← read (About.stats about) "years_operating";
  mret
    [ block (Some "Mission") (Organization.mission org);
      block (Some "History")
        (Some (display (About.history about) +:+ " Founded in "
               +:+ display_number (About.founded about)
               +:+ ", Catholic Charities has served the Twin Cities for "
               +:+ display_number (Stats.years_operating stats)
               +:+ " years.")) ].

Definition service_matches (svc : Service.t) : M bool :=
  keywords ← read (Service.keywords svc) "join";
  let matchText :=
    toLowerCase (display (Service.name svc) +:+ " "
                 +:+ display (Service.description svc) +:+ " "
                 +:+ join keywords " ") in
  mret (existsb (fun word => includes matchText word) (split_space query)).

Definition service_blocks : M (list Block.t) :=
  services ← read (Organization.services org) "filter";
  matchingServices ← filterM service_matches services;
  if (0 <? length matchingServices)%nat then
    mret (map (fun svc => block (Service.name svc) (Service.description svc))
            matchingServices)
  else
    mret
      [ block (Some "Services Overview")
          (Some ("Catholic Charities Twin Cities offers these core services:"
                 +:+ nl +:+ nl
                 +:+ join
                       (map (fun svc => "• **" +:+ display (Service.name svc)
                                        +:+ "**: "
                                        +:+ display (Service.description svc))
                          services)
                       (nl +:+ nl))) ].

Definition location_text (loc : OrgLocation.t) : string :=
  "**" +:+ display (OrgLocation.name loc) +:+ "**" +:+ nl
  +:+ display (OrgLocation.address loc)
  +:+ if_truthy (OrgLocation.phone loc) (fun p => nl +:+ "Phone: " +:+ p).

Definition contact_blocks : M (list Block.t) :=
  contact ← read (Organization.contact org) "main_phone";
  locations ← read (Organization.locations org) "map";
  mret
    [ block (Some "Contact Information")
        (Some ("**Main Office:**" +:+ nl
               +:+ "Phone: " +:+ display (OrgContact.main_phone contact) +:+ nl
               +:+ "Email: " +:+ display (OrgContact.main_email contact) +:+ nl
               +:+ "Hours: " +:+ display (OrgContact.hours contact) +:+ nl +:+ nl
               +:+ "**Volunteer inquiries:** volunteer@cctwincities.org | (612) 204-8435" +:+ nl
               +:+ "**Donation inquiries:** giving.info@cctwincities.org | (612) 204-8374"));
      block (Some "Locations")
        (Some (join (map location_text locations) (nl +:+ nl))) ].

Definition event_text (evt : Event.t) : string :=
  "**" +:+ display (Event.name evt) +:+ "** - " +:+ display (Event.date evt) +:+ nl
  +:+ display (Event.description evt) +:+ nl +:+ display (Event.url evt).

Definition events_blocks : M (list Block.t) :=
  events ← read (Organization.upcoming_events org) "map";
  mret
    [ block (Some "Upcoming Events")
        (Some (join (map event_text events) (nl +:+ nl))) ].

Definition stats_blocks : M (list Block.t) :=
  about ← read (Organization.about org) "stats";
  stats ← read (About.stats about) "people_served_annually";
  people ← read (Stats.people_served_annually stats) "toLocaleString";
  meals ← read (Stats.meals_served_annually stats) "toLocaleString";
  nights ← read (Stats.nights_of_housing_provided_annually stats) "toLocaleString";
  volunteers ← read (Stats.volunteers_annually stats) "toLocaleString";
  hours ← read (Stats.volunteer_hours_annually stats) "toLocaleString";
  mret
    [ block (Some "Impact & Statistics")
        (Some ("Catholic Charities Twin Cities serves the community with significant impact:"
               +:+ nl +:+ nl
               +:+ "• **" +:+ toLocaleString people
                 +:+ "** people served annually" +:+ nl
               +:+ "• **" +:+ toLocaleString meals
                 +:+ "** meals served annually" +:+ nl
               +:+ "• **" +:+ toLocaleString nights
                 +:+ "** nights of housing provided annually" +:+ nl
               +:+ "• **" +:+ toLocaleString volunteers
                 +:+ "** volunteers annually" +:+ nl
               +:+ "• **" +:+ toLocaleString hours
                 +:+ "+** volunteer hours annually" +:+ nl
               +:+ "• **" +:+ display_number (Stats.years_operating stats)
                 +:+ "** years serving the Twin Cities")) ].

Definition default_blocks : M (list Block.t) :=
  about ← read (Organization.about org) "founded";
  contact ← read (Organization.contact org) "main_phone";
  mret
    [ block (Some "About Catholic Charities Twin Cities")
        (Some (display (Organization.mission org) +:+ nl +:+ nl
               +:+ "Serving the " +:+ display (Organization.service_area org)
               +:+ " since " +:+ display_number (About.founded about) +:+ "."
               +:+ nl +:+ nl
               +:+ "Contact: " +:+ display (OrgContact.main_phone contact)
               +:+ " | " +:+ display (OrgContact.main_email contact))) ].

(** [if (cond) { results.push(...) }] *)
Definition push_if (cond : bool) (blocks : M (list Block.t))
  (results : list Block.t) : M (list Block.t) :=
  if cond then (bs ← blocks; mret (results ++ bs)) else mret results.

Definition org_results : M (list Block.t) :=
  results ← push_if (mission_triggered query) mission_blocks [];
  results ← push_if (services_triggered query) service_blocks results;
  results ← push_if (contact_triggered query) contact_blocks results;
  results ← push_if (events_triggered query) events_blocks results;
  results ← push_if (stats_triggered query) stats_blocks results;
  push_if (length results =? 0)%nat default_blocks results.
End RawOrgSearch.

Definition block_text (result : Block.t) : string :=
  "**" +:+ display (Block.heading result) +:+ "**" +:+ nl +:+ nl
  +:+ display (Block.summary result) +:+ nl +:+ nl
  +:+ "Source: " +:+ display (Block.source_url result).

Definition search_org_info_body (ccData : CCData.t) (query : string)
  : M ToolResult.t :=
  results ← org_results (CCData.organization ccData) (toLowerCase query);
  mret (ToolResult.text_only (join (map block_text results) org_separator)).

Definition org_apology : string :=
  "Sorry, an error occurred while searching organization information. Please contact info@cctwincities.org at (612) 204-8500.".

Definition search_org_info (ccData : CCData.t) (query : string) : Outcome.t :=
  try_catch (search_org_info_body ccData query)
    "Error in search_org_info:" org_apology.

End Raw.

(** ** Typed data as a document with every field present *)

Definition raw_contact (c : Contact.t) : Raw.Contact.t :=
  {| Raw.Contact.phone := Some (Contact.phone c);
     Raw.Contact.email := Some (Contact.email c) |}.

Definition raw_location (l : Location.t) : Raw.Location.t :=
  {| Raw.Location.city := Some (Location.city l);
     Raw.Location.facility := Some (Location.facility l);
     Raw.Location.address := Location.address l |}.

Definition raw_schedule (s : Schedule.t) : Raw.Schedule.t :=
  {| Raw.Schedule.type := Some (Schedule.type s);
     Raw.Schedule.details := Some (Schedule.details s) |}.

Definition raw_requirements (r : Requirements.t) : Raw.Requirements.t :=
  {| Raw.Requirements.age_minimum := Raw.Present (Requirements.age_minimum r);
     Raw.Requirements.background_check := Requirements.background_check r;
     Raw.Requirements.skills := Some (Requirements.skills r);
     Raw.Requirements.group_friendly := Some (Requirements.group_friendly r);
     Raw.Requirements.max_group_size := Requirements.max_group_size r |}.

Definition raw_opportunity (o : Opportunity.t) : Raw.Opportunity.t :=
  {| Raw.Opportunity.id := Some (Opportunity.id o);
     Raw.Opportunity.title := Some (Opportunity.title o);
     Raw.Opportunity.description := Some (Opportunity.description o);
     Raw.Opportunity.location := Some (raw_location (Opportunity.location o));
     Raw.Opportunity.schedule := Some (raw_schedule (Opportunity.schedule o));
     Raw.Opportunity.requirements :=
       Some (raw_requirements (Opportunity.requirements o));
     Raw.Opportunity.contact := Some (raw_contact (Opportunity.contact o));
     Raw.Opportunity.signup_url := Opportunity.signup_url o;
     Raw.Opportunity.source_url := Some (Opportunity.source_url o) |}.

Definition raw_volunteer (v : Volunteer.t) : Raw.Volunteer.t :=
  {| Raw.Volunteer.opportunities := map raw_opportunity (Volunteer.opportunities v);
     Raw.Volunteer.general_info :=
       Some {| Raw.GeneralInfo.main_contact :=
                 Some (raw_contact (GeneralInfo.main_contact (Volunteer.general_info v))) |} |}.

Definition raw_online (d : OnlineDonation.t) : Raw.OnlineDonation.t :=
  {| Raw.OnlineDonation.donation_page_url := Some (OnlineDonation.donation_page_url d);
     Raw.OnlineDonation.types := Some (OnlineDonation.types d);
     Raw.OnlineDonation.notes := Some (OnlineDonation.notes d);
     Raw.OnlineDonation.contact := Some (raw_contact (OnlineDonation.contact d)) |}.

Definition raw_accepted_item (c : AcceptedItem.t) : Raw.AcceptedItem.t :=
  {| Raw.AcceptedItem.category := Some (AcceptedItem.category c);
     Raw.AcceptedItem.details := Some (AcceptedItem.details c);
     Raw.AcceptedItem.restrictions := AcceptedItem.restrictions c |}.

Definition raw_drop_off (l : DropOffLocation.t) : Raw.DropOffLocation.t :=
  {| Raw.DropOffLocation.name := Some (DropOffLocation.name l);
     Raw.DropOffLocation.address := Some (DropOffLocation.address l);
     Raw.DropOffLocation.hours := Some (DropOffLocation.hours l);
     Raw.DropOffLocation.phone := Some (DropOffLocation.phone l);
     Raw.DropOffLocation.email := Some (DropOffLocation.email l) |}.

Definition raw_in_kind (d : InKindDonation.t) : Raw.InKindDonation.t :=
  {| Raw.InKindDonation.accepted_items :=
       Some (map raw_accepted_item (InKindDonation.accepted_items d));
     Raw.InKindDonation.not_accepted := Some (InKindDonation.not_accepted d);
     Raw.InKindDonation.drop_off_locations :=
       Some (map raw_drop_off (InKindDonation.drop_off_locations d));
     Raw.InKindDonation.policies := Some (InKindDonation.policies d);
     Raw.InKindDonation.wishlist_url := Some (InKindDonation.wishlist_url d) |}.

Definition raw_vehicle (d : VehicleDonation.t) : Raw.VehicleDonation.t :=
  {| Raw.VehicleDonation.process_description :=
       Some (VehicleDonation.process_description d);
     Raw.VehicleDonation.phone := Some (VehicleDonation.phone d);
     Raw.VehicleDonation.program_url := Some (VehicleDonation.program_url d) |}.

Definition raw_donations (d : Donations.t) : Raw.Donations.t :=
  {| Raw.Donations.online := Some (raw_online (Donations.online d));
     Raw.Donations.in_kind := Some (raw_in_kind (Donations.in_kind d));
     Raw.Donations.vehicle := Some (raw_vehicle (Donations.vehicle d)) |}.

Definition raw_stats (s : Stats.t) : Raw.Stats.t :=
  {| Raw.Stats.people_served_annually := Some (Stats.people_served_annually s);
     Raw.Stats.meals_served_annually := Some (Stats.meals_served_annually s);
     Raw.Stats.nights_of_housing_provided_annually :=
       Some (Stats.nights_of_housing_provided_annually s);
     Raw.Stats.volunteers_annually := Some (Stats.volunteers_annually s);
     Raw.Stats.volunteer_hours_annually := Some (Stats.volunteer_hours_annually s);
     Raw.Stats.years_operating := Some (Stats.years_operating s) |}.

Definition raw_about (a : About.t) : Raw.About.t :=
  {| Raw.About.history := Some (About.history a);
     Raw.About.founded := Some (About.founded a);
     Raw.About.stats := Some (raw_stats (About.stats a)) |}.

Definition raw_service (s : Service.t) : Raw.Service.t :=
  {| Raw.Service.name := Some (Service.name s);
     Raw.Service.description := Some (Service.description s);
     Raw.Service.keywords := Some (Service.keywords s) |}.

Definition raw_org_location (l : OrgLocation.t) : Raw.OrgLocation.t :=
  {| Raw.OrgLocation.name := Some (OrgLocation.name l);
     Raw.OrgLocation.address := Some (OrgLocation.address l);
     Raw.OrgLocation.phone := OrgLocation.phone l |}.

Definition raw_event (e : Event.t) : Raw.Event.t :=
  {| Raw.Event.name := Some (Event.name e);
     Raw.Event.date := Some (Event.date e);
     Raw.Event.description := Some (Event.description e);
     Raw.Event.url := Some (Event.url e) |}.

Definition raw_org_contact (c : OrgContact.t) : Raw.OrgContact.t :=
  {| Raw.OrgContact.main_phone := Some (OrgContact.main_phone c);
     Raw.OrgContact.main_email := Some (OrgContact.main_email c);
     Raw.OrgContact.hours := Some (OrgContact.hours c) |}.

Definition raw_organization (o : Organization.t) : Raw.Organization.t :=
  {| Raw.Organization.mission := Some (Organization.mission o);
     Raw.Organization.about := Some (raw_about (Organization.about o));
     Raw.Organization.services := Some (map raw_service (Organization.services o));
     Raw.Organization.locations :=
       Some (map raw_org_location (Organization.locations o));
     Raw.Organization.upcoming_events :=
       Some (map raw_event (Organization.upcoming_events o));
     Raw.Organization.contact := Some (raw_org_contact (Organization.contact o));
     Raw.Organization.service_area := Some (Organization.service_area o);
     Raw.Organization.source_url := Some (Organization.source_url o) |}.

Definition raw_ccData (d : CCData.t) : Raw.CCData.t :=
  {| Raw.CCData.volunteer := raw_volunteer (CCData.volunteer d);
     Raw.CCData.donations := raw_donations (CCData.donations d);
     Raw.CCData.organization := raw_organization (CCData.organization d) |}.

Definition raw_structured (s : StructuredContent.t) : Raw.StructuredContent.t :=
  {| Raw.StructuredContent.opportunities :=
       map raw_opportunity (StructuredContent.opportunities s);
     Raw.StructuredContent.contact := Some (raw_contact (StructuredContent.contact s)) |}.

Definition raw_result (r : ToolResult.t) : Raw.ToolResult.t :=
  {| Raw.ToolResult.content := ToolResult.content r;
     Raw.ToolResult.structuredContent :=
       option_map raw_structured (ToolResult.structuredContent r);
     Raw.ToolResult._meta := ToolResult._meta r |}.

Definition raw_block (b : Block.t) : Raw.Block.t :=
  {| Raw.Block.heading := Some (Block.heading b);
     Raw.Block.summary := Some (Block.summary b);
     Raw.Block.source_url := Some (Block.source_url b) |}.

(** A call that ended without a catch: the value was returned by the body
    and nothing was written to the console. *)
Definition returned (r : ToolResult.t) : Raw.Outcome.t :=
  {| Raw.Outcome.result := raw_result r; Raw.Outcome.console := [] |}.

(** ** Sample data *)

Definition sample_contact : Contact.t :=
  {| Contact.phone := "(612) 204-8435";
     Contact.email := "volunteer@cctwincities.org" |}.

(** An opportunity in Minneapolis with the given title, description,
    minimum age, group-friendly flag and skills. *)
Definition sample_opportunity (title description : string) (age : Z)
  (group : bool) (skills : list string) : Opportunity.t :=
  {| Opportunity.id := toLowerCase title;
     Opportunity.title := title;
     Opportunity.description := description;
     Opportunity.location :=
       {| Location.city := "Minneapolis";
          Location.facility := "Higher Ground";
          Location.address := None |};
     Opportunity.schedule :=
       {| Schedule.type := "weekly"; Schedule.details := "Every Tuesday evening" |};
     Opportunity.requirements :=
       {| Requirements.age_minimum := age;
          Requirements.background_check := None;
          Requirements.skills := skills;
          Requirements.group_friendly := group;
          Requirements.max_group_size := None |};
     Opportunity.contact := sample_contact;
     Opportunity.signup_url := None;
     Opportunity.source_url := "https://cctwincities.org/volunteer" |}.

Definition sample_donations : Donations.t :=
  {| Donations.online :=
       {| OnlineDonation.donation_page_url := "https://cctwincities.org/donate";
          OnlineDonation.types := ["One-time"; "Monthly"];
          OnlineDonation.notes := "All gifts are tax deductible.";
          OnlineDonation.contact :=
            {| Contact.phone := "(612) 204-8374";
               Contact.email := "giving.info@cctwincities.org" |} |};
     Donations.in_kind :=
       {| InKindDonation.accepted_items :=
            [ {| AcceptedItem.category := "Winter gear";
                 AcceptedItem.details := "Coats, hats and gloves";
                 AcceptedItem.restrictions := Some "New items only" |} ];
          InKindDonation.not_accepted := ["Furniture"];
          InKindDonation.drop_off_locations :=
            [ {| DropOffLocation.name := "Distribution Center";
                 DropOffLocation.address := "341 Chester St, St. Paul";
                 DropOffLocation.hours := "Monday-Friday 9am-4pm";
                 DropOffLocation.phone := "(612) 204-8500";
                 DropOffLocation.email := "info@cctwincities.org" |} ];
          InKindDonation.policies := ["New items only"];
          InKindDonation.wishlist_url := "https://cctwincities.org/wishlist" |};
     Donations.vehicle :=
       {| VehicleDonation.process_description := "Free pickup, tax deductible.";
          VehicleDonation.phone := "1-877-952-2872";
          VehicleDonation.program_url := "https://cctwincities.org/vehicle" |} |}.

Definition sample_organization : Organization.t :=
  {| Organization.mission := "We serve those most in need.";
     Organization.about :=
       {| About.history := "Catholic Charities began as an orphanage.";
          About.founded := 1869;
          About.stats :=
            {| Stats.people_served_annually := 30000;
               Stats.meals_served_annually := 1000000;
               Stats.nights_of_housing_provided_annually := 550000;
               Stats.volunteers_annually := 10000;
               Stats.volunteer_hours_annually := 150000;
               Stats.years_operating := 155 |} |};
     Organization.services :=
       [ {| Service.name := "Food Services";
            Service.description := "Free meals every day.";
            Service.keywords := ["food"; "meals"] |} ];
     Organization.locations :=
       [ {| OrgLocation.name := "Higher Ground Minneapolis";
            OrgLocation.address := "165 Glenwood Ave, Minneapolis";
            OrgLocation.phone := None |} ];
     Organization.upcoming_events := [];
     Organization.contact :=
       {| OrgContact.main_phone := "(612) 204-8500";
          OrgContact.main_email := "info@cctwincities.org";
          OrgContact.hours := "Monday-Friday 8am-4:30pm" |};
     Organization.service_area := "Twin Cities metro area";
     Organization.source_url := "https://cctwincities.org" |}.

(** A data store holding the given opportunities. *)
Definition sample_ccData (opportunities : list Opportunity.t) : CCData.t :=
  {| CCData.volunteer :=
       {| Volunteer.opportunities := opportunities;
          Volunteer.general_info :=
            {| GeneralInfo.main_contact := sample_contact |} |};
     CCData.donations := sample_donations;
     CCData.organization := sample_organization |}.

(** A document with three defects: the only opportunity has no [title],
    [donations] has no [online] section, and [organization] has no
    [about]. *)
Definition untitled_opportunity : Raw.Opportunity.t :=
  {| Raw.Opportunity.id := Some "untitled";
     Raw.Opportunity.title := None;
     Raw.Opportunity.description := Some "Serve dinner";
     Raw.Opportunity.location := None;
     Raw.Opportunity.schedule := None;
     Raw.Opportunity.requirements := None;
     Raw.Opportunity.contact := None;
     Raw.Opportunity.signup_url := None;
     Raw.Opportunity.source_url := None |}.

Definition malformed_ccData : Raw.CCData.t :=
  {| Raw.CCData.volunteer :=
       {| Raw.Volunteer.opportunities := [untitled_opportunity];
          Raw.Volunteer.general_info := None |};
     Raw.CCData.donations :=
       {| Raw.Donations.online := None;
          Raw.Donations.in_kind := Some (raw_in_kind (Donations.in_kind sample_donations));
          Raw.Donations.vehicle := Some (raw_vehicle (Donations.vehicle sample_donations)) |};
     Raw.CCData.organization :=
       {| Raw.Organization.mission := Some "We serve those most in need.";
          Raw.Organization.about := None;
          Raw.Organization.services := None;
          Raw.Organization.locations := None;
          Raw.Organization.upcoming_events := None;
          Raw.Organization.contact := None;
          Raw.Organization.service_area := None;
          Raw.Organization.source_url := None |} |}.

(** The message of a thrown value, and the text a call answers with. *)
Definition error_message (e : Raw.exn) : string :=
  match e with
  | Raw.TypeError message => message
  end.

Definition outcome_text (o : Raw.Outcome.t) : string :=
  match Raw.ToolResult.content (Raw.Outcome.result o) with
  | item :: _ => TextContent.text item
  | [] => ""
  end.

(** The errors a failed property read throws. *)
Definition read_error (e : Raw.exn) : Prop :=
  exists name,
    e = Raw.TypeError
          ("Cannot read properties of undefined (reading '" +:+ name +:+ "')").

(** A computation that, when it throws, throws the error of a failed
    read. *)
Definition throws_only_read_errors {A : Type} (m : Raw.M A) : Prop :=
  forall e, m = inl e -> read_error e.

(** A record that has a title and nothing else, and a record that has
    requirements with the given flag and minimum age and nothing else. *)
Definition titled_only (title : string) : Raw.Opportunity.t :=
  {| Raw.Opportunity.id := None;
     Raw.Opportunity.title := Some title;
     Raw.Opportunity.description := None;
     Raw.Opportunity.location := None;
     Raw.Opportunity.schedule := None;
     Raw.Opportunity.requirements := None;
     Raw.Opportunity.contact := None;
     Raw.Opportunity.signup_url := None;
     Raw.Opportunity.source_url := None |}.


(** ** The passes of the search by name *)

(** The pass of the search that applies criterion [c]. *)
Definition pass (c : Criterion) (p : Params.t)
  (opportunities : list Opportunity.t) : list Opportunity.t :=
  match c with
  | Keyword => filter_keyword p opportunities
  | City => filter_city p opportunities
  | ScheduleKind => filter_schedule_type p opportunities
  | AgeMinimum => filter_age_minimum p opportunities
  | GroupFriendly => filter_group_friendly p opportunities
  | Skill => filter_skill p opportunities
  end.

(** The passes run one after the other in the given order. *)
Definition run_passes (order : list Criterion) (p : Params.t)
  (opportunities : list Opportunity.t) : list Opportunity.t :=
  fold_left (fun l c => pass c p l) order opportunities.

(** The value of the [schedule_type] argument that validation accepts for a
    string. *)
Definition parse_schedule_type (s : string) : option ScheduleType :=
  if (s =? "one-time")%string then Some one_time
  else if (s =? "weekly")%string then Some weekly
  else if (s =? "flexible")%string then Some flexible
  else if (s =? "ongoing")%string then Some ongoing
  else None.

(** ** The Express shell: CORS origin, session registry, [/messages] *)

(** [s.split(sep)] for a one-character separator. *)
Fixpoint split_on (sep : ascii) (s : string) : list string :=
  match s with
  | EmptyString => [EmptyString]
  | String c s' =>
      if Ascii.eqb c sep then EmptyString :: split_on sep s'
      else match split_on sep s' with
           | w :: ws => String c w :: ws
           | [] => [String c EmptyString]
           end
  end.

(** The [origin] option handed to [cors]. *)
Inductive Origin :=
| AnyOrigin
| Origins (allowed : list string).

(** [process.env.ALLOWED_ORIGINS?.split(',') || '*']: an array is truthy
    whatever it holds, so the wildcard is taken only when the variable is not
    set. *)
Definition cors_origin (ALLOWED_ORIGINS : option string) : Origin :=
  match ALLOWED_ORIGINS with
  | Some s => Origins (split_on ","%char s)
  | None => AnyOrigin
  end.

(** The property names every object literal inherits from
    [Object.prototype]. *)
Definition object_prototype_names : list string :=
  [ "constructor"; "__defineGetter__"; "__defineSetter__"; "hasOwnProperty";
    "__lookupGetter__"; "__lookupSetter__"; "isPrototypeOf";
    "propertyIsEnumerable"; "toString"; "valueOf"; "__proto__";
    "toLocaleString" ].

Definition is_prototype_name (name : string) : bool :=
  existsb (String.eqb name) object_prototype_names.

(** A reply sent with [res.status(code).send(body)]. *)
Inductive HttpReply := Reply (status : nat) (body : string).

(** How [transport.handlePostMessage(req.body, res)] ends: it returns, or
    throws after or before it sent headers. *)
Inductive HandleOutcome :=
| Completed
| Threw (headersSent : bool).

Section Sessions.
(** The transport objects of the protocol library. *)
Variable Transport : Type.

(** [transports], the own properties of the object [{}]. *)
Definition Transports : Type := gmap string Transport.

(** [transports[sessionId] = transport] in the [/mcp] handler. The session
    identifiers are made by the transport (random UUIDs); the assignment is
    an own property for every key but [__proto__]. *)
Definition establish (sessionId : string) (transport : Transport)
  (transports : Transports) : Transports :=
  <[sessionId := transport]> transports.

(** [transport.onclose]: [delete transports[sessionId]]. *)
Definition onclose (sessionId : string) (transports : Transports)
  : Transports :=
  delete sessionId transports.

(** What happens to the registry between two requests. *)
Inductive SessionEvent :=
| Established (sessionId : string) (transport : Transport)
| Closed (sessionId : string).

Definition session_of (e : SessionEvent) : string :=
  match e with
  | Established sessionId _ => sessionId
  | Closed sessionId => sessionId
  end.

Definition apply_event (transports : Transports) (e : SessionEvent)
  : Transports :=
  match e with
  | Established sessionId transport => establish sessionId transport transports
  | Closed sessionId => onclose sessionId transports
  end.

Definition apply_events (events : list SessionEvent)
  (transports : Transports) : Transports :=
  fold_left apply_event events transports.

(** [transports[sessionId]]: an own property, a member inherited from
    [Object.prototype] (a function or an object, truthy, and without a
    [handlePostMessage]), or [undefined]. *)
Inductive Property :=
| Own (transport : Transport)
| Inherited
| Undefined.

Definition get_transport (transports : Transports) (sessionId : string)
  : Property :=
  match transports !! sessionId with
  | Some transport => Own transport
  | None => if is_prototype_name sessionId then Inherited else Undefined
  end.

(** What a [POST /messages] does: the transport it hands the message to, if
    any, and the reply the endpoint itself sends, if any. *)
Record PostResult := {
  handled_by : option Transport;
  reply : option HttpReply
}.

Definition replied (status : nat) (body : string) : PostResult :=
  {| handled_by := None; reply := Some (Reply status body) |}.

(** The handler of [POST /messages], for a [sessionId] query parameter that
    is absent or one string. [handlePostMessage] tells how the transport's
    own handling ends. *)
Definition post_messages (transports : Transports)
  (handlePostMessage : Transport -> HandleOutcome)
  (sessionId : option string) : PostResult :=
  match sessionId with
  | None => replied 400 "Missing sessionId parameter"
  | Some sessionId =>
      if negb (truthy sessionId) then replied 400 "Missing sessionId parameter"
      else
        match get_transport transports sessionId with
        | Undefined => replied 404 "Session not found"
        | Inherited =>
            (* [transport.handlePostMessage] is not a function: the call
               throws before anything is sent *)
            replied 500 "Error handling message"
        | Own transport =>
            match handlePostMessage transport with
            | Completed => {| handled_by := Some transport; reply := None |}
            | Threw headersSent =>
                {| handled_by := Some transport;
                   reply := if headersSent then None
                            else Some (Reply 500 "Error handling message") |}
            end
        end
  end.
End Sessions.

Arguments Own {Transport} transport.
Arguments Inherited {Transport}.
Arguments Undefined {Transport}.
Arguments Established {Transport} sessionId transport.
Arguments Closed {Transport} sessionId.
Arguments establish {Transport} sessionId transport transports.
Arguments onclose {Transport} sessionId transports.
Arguments session_of {Transport} e.
Arguments apply_event {Transport} transports e.
Arguments apply_events {Transport} events transports.
Arguments get_transport {Transport} transports sessionId.
Arguments handled_by {Transport} p.
Arguments reply {Transport} p.
Arguments replied {Transport} status body.
Arguments post_messages {Transport} transports handlePostMessage sessionId.

(** ** The volunteer widget ([widget/volunteer-list.tsx]) *)

Module Widget.

(** The callbacks of the two local filters. *)
Definition city_callback (filterCity : string) (opp : Opportunity.t) : bool :=
  includes (toLowerCase (Location.city (Opportunity.location opp)))
    (toLowerCase filterCity).

Definition schedule_callback (filterSchedule : string) (opp : Opportunity.t)
  : bool :=
  (Schedule.type (Opportunity.schedule opp) =? filterSchedule)%string.

(** [filteredOpps] *)
Definition filteredOpps (filterCity filterSchedule : string)
  (opportunities : list Opportunity.t) : list Opportunity.t :=
  let filteredOpps := opportunities in
  let filteredOpps :=
    if truthy filterCity
    then List.filter (city_callback filterCity) filteredOpps
    else filteredOpps in
  let filteredOpps :=
    if truthy filterSchedule
    then List.filter (schedule_callback filterSchedule) filteredOpps
    else filteredOpps in
  filteredOpps.

(** [Array.from(new Set(l))]: the first occurrence of each string, in the
    order of insertion. *)
Fixpoint unique_from (seen l : list string) : list string :=
  match l with
  | [] => []
  | x :: l' =>
      if existsb (String.eqb x) seen then unique_from seen l'
      else x :: unique_from (x :: seen) l'
  end.

Definition unique (l : list string) : list string := unique_from [] l.

(** [l.sort()] on strings: ascending by character codes. *)
Definition sort (l : list string) : list string := merge_sort String.le l.

(** The options of the two drop-down lists below [All Cities] and
    [All Schedules]. *)
Definition cities (opportunities : list Opportunity.t) : list string :=
  sort (unique (map (fun o => Location.city (Opportunity.location o))
                  opportunities)).

Definition scheduleTypes (opportunities : list Opportunity.t) : list string :=
  sort (unique (map (fun o => Schedule.type (Opportunity.schedule o))
                  opportunities)).

(** What the component renders. *)
Inductive View :=
| Loading
| NoMatch
| NoOpportunities
| OpportunityList (shown : list Opportunity.t) (cityOptions scheduleOptions : list string).

(** The return statements of [VolunteerList], in order. *)
Definition render (data : option StructuredContent.t)
  (filterCity filterSchedule : string) : View :=
  match data with
  | None => Loading
  | Some data =>
      let opportunities := StructuredContent.opportunities data in
      let filteredOpps := filteredOpps filterCity filterSchedule opportunities in
      if (length filteredOpps =? 0)%nat
         && (truthy filterCity || truthy filterSchedule)
      then NoMatch
      else if (length opportunities =? 0)%nat then NoOpportunities
      else OpportunityList filteredOpps (cities opportunities)
             (scheduleTypes opportunities)
  end.

(** The arguments of the [callTool] in [handleRefreshWithFilters]:
    [filterCity || undefined] and [filterSchedule || undefined]. *)
Definition or_undefined (s : string) : option string :=
  if truthy s then Some s else None.

(** The call as the server sees it after validation, which accepts a
    [schedule_type] of the enum only. *)
Definition refresh_params (filterCity filterSchedule : string)
  : option Params.t :=
  match or_undefined filterSchedule with
  | None => Some (Params.set_city (or_undefined filterCity) Params.none)
  | Some s =>
      match parse_schedule_type s with
      | Some t =>
          Some (Params.set_schedule_type (Some t)
                  (Params.set_city (or_undefined filterCity) Params.none))
      | None => None
      end
  end.

End Widget.

(** * Properties *)

(** ** Strings *)

Lemma append_cons (c : ascii) (a b : string) :
  String c a +:+ b = String c (a +:+ b).
Proof. reflexivity. Qed.

Lemma append_empty_l (b : string) : "" +:+ b = b.
Proof. reflexivity. Qed.

Lemma prefix_spec (kw s : string) :
  String.prefix kw s = true <-> exists r, s = kw +:+ r.
Proof.
  revert s. induction kw as [|c kw IH]; intros s.
  - split; [intros _; exists s; reflexivity | destruct s; reflexivity].
  - destruct s as [|d s]; cbn [String.prefix].
    + split; [discriminate | intros [r Hr]; discriminate].
    + destruct (ascii_dec c d) as [->|Hne].
      * rewrite IH. split.
        -- intros [r ->]. exists r. reflexivity.
        -- intros [r Hr]. rewrite append_cons in Hr.
           injection Hr as ->. exists r. reflexivity.
      * split; [discriminate|].
        intros [r Hr]. rewrite append_cons in Hr.
        injection Hr as Hd _. congruence.
Qed.

Lemma includes_spec (s kw : string) :
  includes s kw = true <-> exists a b, s = a +:+ kw +:+ b.
Proof.
  induction s as [|c s IH].
  - cbn [includes]. rewrite orb_false_r, prefix_spec. split.
    + intros [r Hr]. exists "", r. exact Hr.
    + intros [a [b Hab]]. destruct a; [exists b; exact Hab | discriminate].
  - cbn [includes]. rewrite orb_true_iff, IH, prefix_spec. split.
    + intros [[r Hr] | [a [b Hab]]].
      * exists "", r. exact Hr.
      * exists (String c a), b. rewrite append_cons, Hab. reflexivity.
    + intros [a [b Hab]]. destruct a as [|d a].
      * left. exists b. exact Hab.
      * right. rewrite append_cons in Hab.
        injection Hab as _ Hs. exists a, b. exact Hs.
Qed.

Lemma includes_empty (s : string) : includes s "" = true.
Proof. destruct s; reflexivity. Qed.

Lemma append_assoc (a b c : string) : (a +:+ b) +:+ c = a +:+ b +:+ c.
Proof.
  induction a as [|x a IH]; [reflexivity|].
  rewrite !append_cons. f_equal. exact IH.
Qed.

Lemma includes_append_l (s t kw : string) :
  includes s kw = true -> includes (s +:+ t) kw = true.
Proof.
  rewrite !includes_spec. intros [a [b ->]].
  exists a, (b +:+ t). rewrite !append_assoc. reflexivity.
Qed.

Lemma includes_append_r (s t kw : string) :
  includes t kw = true -> includes (s +:+ t) kw = true.
Proof.
  rewrite !includes_spec. intros [a [b ->]].
  exists (s +:+ a), b. rewrite !append_assoc. reflexivity.
Qed.

Lemma toLowerCase_append (a b : string) :
  toLowerCase (a +:+ b) = toLowerCase a +:+ toLowerCase b.
Proof.
  induction a as [|x a IH]; [reflexivity|].
  rewrite append_cons. cbn [toLowerCase]. rewrite append_cons.
  f_equal. exact IH.
Qed.

Lemma truthy_empty : truthy "" = false.
Proof. reflexivity. Qed.

Example toLocaleString_examples :
  toLocaleString 30000 = "30,000" /\ toLocaleString 1000000 = "1,000,000"
  /\ toLocaleString 999 = "999" /\ toLocaleString 0 = "0"
  /\ toLocaleString (-1234) = "-1,234".
Proof. repeat split; reflexivity. Qed.

Example split_space_examples :
  split_space "free meals" = ["free"; "meals"]
  /\ split_space "" = [""] /\ split_space " a" = [""; "a"].
Proof. repeat split; reflexivity. Qed.

(** ** Lists *)

Lemma filter_filter {A : Type} (f g : A -> bool) (l : list A) :
  List.filter g (List.filter f l) = List.filter (fun x => f x && g x) l.
Proof.
  induction l as [|x l IH]; simpl; [reflexivity|].
  destruct (f x); simpl; [destruct (g x)|]; rewrite IH; reflexivity.
Qed.

Lemma filter_sublist {A : Type} (f : A -> bool) (l : list A) :
  List.filter f l `sublist_of` l.
Proof.
  induction l as [|x l IH]; simpl; [constructor|].
  destruct (f x); [apply sublist_skip | apply sublist_cons]; exact IH.
Qed.

Lemma filter_true {A : Type} (l : list A) : List.filter (fun _ => true) l = l.
Proof. induction l as [|x l IH]; simpl; [|rewrite IH]; reflexivity. Qed.

Lemma copy_opportunity_id (opp : Opportunity.t) : copy_opportunity opp = opp.
Proof. destruct opp; reflexivity. Qed.

Lemma map_copy_opportunity (l : list Opportunity.t) :
  map copy_opportunity l = l.
Proof.
  induction l as [|x l IH]; simpl; [reflexivity|].
  rewrite copy_opportunity_id, IH. reflexivity.
Qed.

(** ** The filters, one criterion at a time *)

Lemma filter_keyword_satisfies (p : Params.t) (l : list Opportunity.t) :
  filter_keyword p l = List.filter (satisfies Keyword p) l.
Proof.
  unfold filter_keyword, satisfies, when_nonempty, when_supplied.
  destruct (Params.keyword p) as [k|]; [destruct (truthy k)|];
    try reflexivity; symmetry; apply filter_true.
Qed.

Lemma filter_city_satisfies (p : Params.t) (l : list Opportunity.t) :
  filter_city p l = List.filter (satisfies City p) l.
Proof.
  unfold filter_city, satisfies, when_nonempty, when_supplied.
  destruct (Params.city p) as [k|]; [destruct (truthy k)|];
    try reflexivity; symmetry; apply filter_true.
Qed.

Lemma filter_schedule_type_satisfies (p : Params.t) (l : list Opportunity.t) :
  filter_schedule_type p l = List.filter (satisfies ScheduleKind p) l.
Proof.
  unfold filter_schedule_type, satisfies, when_supplied.
  destruct (Params.schedule_type p) as [[]|]; try reflexivity.
  symmetry; apply filter_true.
Qed.

Lemma filter_age_minimum_satisfies (p : Params.t) (l : list Opportunity.t) :
  filter_age_minimum p l = List.filter (satisfies AgeMinimum p) l.
Proof.
  unfold filter_age_minimum, satisfies, when_supplied.
  destruct (Params.age_minimum p); [reflexivity|]. symmetry; apply filter_true.
Qed.

Lemma filter_group_friendly_satisfies (p : Params.t) (l : list Opportunity.t) :
  filter_group_friendly p l = List.filter (satisfies GroupFriendly p) l.
Proof.
  unfold filter_group_friendly, satisfies, when_supplied.
  destruct (Params.group_friendly p); [reflexivity|]. symmetry; apply filter_true.
Qed.

Lemma filter_skill_satisfies (p : Params.t) (l : list Opportunity.t) :
  filter_skill p l = List.filter (satisfies Skill p) l.
Proof.
  unfold filter_skill, satisfies, when_nonempty, when_supplied.
  destruct (Params.skill p) as [k|]; [destruct (truthy k)|];
    try reflexivity; symmetry; apply filter_true.
Qed.

Lemma apply_filters_satisfies_all (p : Params.t) (l : list Opportunity.t) :
  apply_filters p l = List.filter (satisfies_all p) l.
Proof.
  unfold apply_filters.
  rewrite filter_keyword_satisfies, filter_city_satisfies,
    filter_schedule_type_satisfies, filter_age_minimum_satisfies,
    filter_group_friendly_satisfies, filter_skill_satisfies.
  rewrite !filter_filter. apply List.filter_ext. intros opp.
  unfold satisfies_all, criteria. cbn [forallb].
  rewrite andb_true_r, !andb_assoc. reflexivity.
Qed.

Lemma search_apply_filters (ccData : CCData.t) (p : Params.t) :
  search ccData p
  = apply_filters p (Volunteer.opportunities (CCData.volunteer ccData)).
Proof.
  unfold search, returned_opportunities, get_volunteer_opportunities.
  cbn. apply map_copy_opportunity.
Qed.

Lemma satisfies_only_same (c : Criterion) (p : Params.t) (opp : Opportunity.t) :
  satisfies c (only c p) opp = satisfies c p opp.
Proof. destruct c; reflexivity. Qed.

Lemma satisfies_only_other (c c' : Criterion) (p : Params.t)
  (opp : Opportunity.t) :
  c <> c' -> satisfies c' (only c p) opp = true.
Proof. destruct c, c'; intros H; try reflexivity; congruence. Qed.

Lemma satisfies_all_only (c : Criterion) (p : Params.t) (opp : Opportunity.t) :
  satisfies_all (only c p) opp = satisfies c p opp.
Proof.
  unfold satisfies_all, criteria. cbn [forallb].
  destruct c; cbn; rewrite ?andb_true_r; reflexivity.
Qed.

Lemma satisfies_all_forall (p : Params.t) (opp : Opportunity.t) :
  satisfies_all p opp = true <-> forall c, satisfies c p opp = true.
Proof.
  unfold satisfies_all. rewrite forallb_forall. split.
  - intros H c. apply H. destruct c; cbn; tauto.
  - intros H c _. apply H.
Qed.

Lemma satisfies_clear (c : Criterion) (p : Params.t) (opp : Opportunity.t) :
  satisfies c (clear c p) opp = true.
Proof. destruct c; reflexivity. Qed.

(** ** The opportunity search *)

(** C1. The search returns exactly the opportunities that satisfy every
    supplied criterion: it is the stored list filtered by the conjunction of
    the six criteria; an opportunity is returned if and only if it is
    returned by each of the six searches that supply one criterion alone; a
    criterion that is left out is satisfied by every opportunity; and with no
    criterion at all the whole list is returned. *)
Theorem search_is_intersection_of_criteria
  (ccData : CCData.t) (p : Params.t) :
  let stored := Volunteer.opportunities (CCData.volunteer ccData) in
  search ccData p = List.filter (satisfies_all p) stored
  /\ (forall c, search ccData (only c p) = List.filter (satisfies c p) stored)
  /\ (forall opp,
        In opp (search ccData p) <-> forall c, In opp (search ccData (only c p)))
  /\ (forall c opp, satisfies c (clear c p) opp = true)
  /\ search ccData Params.none = stored.
Proof.
  intros stored. subst stored.
  assert (Hone : forall c,
    search ccData (only c p)
    = List.filter (satisfies c p)
        (Volunteer.opportunities (CCData.volunteer ccData))).
  { intros c. rewrite search_apply_filters, apply_filters_satisfies_all.
    apply List.filter_ext. intros opp. apply satisfies_all_only. }
  split; [|split; [exact Hone|split; [|split]]].
  - rewrite search_apply_filters. apply apply_filters_satisfies_all.
  - intros opp. rewrite search_apply_filters, apply_filters_satisfies_all.
    rewrite List.filter_In, satisfies_all_forall. split.
    + intros [Hin Hall] c. rewrite Hone, List.filter_In. split; [exact Hin|apply Hall].
    + intros H. split.
      * specialize (H Keyword). rewrite Hone, List.filter_In in H. apply H.
      * intros c. specialize (H c). rewrite Hone, List.filter_In in H. apply H.
  - intros c opp. apply satisfies_clear.
  - rewrite search_apply_filters. reflexivity.
Qed.

Lemma satisfies_all_set_age_minimum (a : Z) (p : Params.t)
  (opp : Opportunity.t) :
  satisfies_all (Params.set_age_minimum (Some a) p) opp
  = satisfies_all (Params.set_age_minimum None p) opp && age_callback a opp.
Proof.
  unfold satisfies_all, criteria. cbn [forallb].
  change (satisfies AgeMinimum (Params.set_age_minimum (Some a) p) opp)
    with (age_callback a opp).
  change (satisfies AgeMinimum (Params.set_age_minimum None p) opp) with true.
  change (satisfies Keyword (Params.set_age_minimum (Some a) p) opp)
    with (satisfies Keyword (Params.set_age_minimum None p) opp).
  change (satisfies City (Params.set_age_minimum (Some a) p) opp)
    with (satisfies City (Params.set_age_minimum None p) opp).
  change (satisfies ScheduleKind (Params.set_age_minimum (Some a) p) opp)
    with (satisfies ScheduleKind (Params.set_age_minimum None p) opp).
  change (satisfies GroupFriendly (Params.set_age_minimum (Some a) p) opp)
    with (satisfies GroupFriendly (Params.set_age_minimum None p) opp).
  change (satisfies Skill (Params.set_age_minimum (Some a) p) opp)
    with (satisfies Skill (Params.set_age_minimum None p) opp).
  btauto.
Qed.

Lemma satisfies_all_set_group_friendly (g : bool) (p : Params.t)
  (opp : Opportunity.t) :
  satisfies_all (Params.set_group_friendly (Some g) p) opp
  = satisfies_all (Params.set_group_friendly None p) opp && group_callback g opp.
Proof.
  unfold satisfies_all, criteria. cbn [forallb].
  change (satisfies GroupFriendly (Params.set_group_friendly (Some g) p) opp)
    with (group_callback g opp).
  change (satisfies GroupFriendly (Params.set_group_friendly None p) opp)
    with true.
  change (satisfies Keyword (Params.set_group_friendly (Some g) p) opp)
    with (satisfies Keyword (Params.set_group_friendly None p) opp).
  change (satisfies City (Params.set_group_friendly (Some g) p) opp)
    with (satisfies City (Params.set_group_friendly None p) opp).
  change (satisfies ScheduleKind (Params.set_group_friendly (Some g) p) opp)
    with (satisfies ScheduleKind (Params.set_group_friendly None p) opp).
  change (satisfies AgeMinimum (Params.set_group_friendly (Some g) p) opp)
    with (satisfies AgeMinimum (Params.set_group_friendly None p) opp).
  change (satisfies Skill (Params.set_group_friendly (Some g) p) opp)
    with (satisfies Skill (Params.set_group_friendly None p) opp).
  btauto.
Qed.

(** C2. Supplying [age_minimum = A] keeps exactly the opportunities whose
    own minimum age is at most [A]: on top of any other criteria the search
    is the search without the age criterion filtered by [age <= A]; alone, an
    opportunity is returned if and only if it is stored and its minimum age
    is at most [A]; with opportunities asking for 14 and 18, the query 16
    returns the 14+ one only. *)
Theorem age_minimum_is_inclusive_upper_bound
  (ccData : CCData.t) (p : Params.t) (A : Z) :
  let stored := Volunteer.opportunities (CCData.volunteer ccData) in
  let age opp := Requirements.age_minimum (Opportunity.requirements opp) in
  search ccData (Params.set_age_minimum (Some A) p)
  = List.filter (fun opp => (age opp <=? A)%Z)
      (search ccData (Params.set_age_minimum None p))
  /\ (forall opp,
        In opp (search ccData (Params.set_age_minimum (Some A) Params.none))
        <-> In opp stored /\ (age opp <= A)%Z)
  /\ (let teen := sample_opportunity "Meal service" "Serve dinner" 14 true [] in
      let adult := sample_opportunity "Shelter desk" "Overnight shift" 18 false [] in
      search (sample_ccData [teen; adult])
        (Params.set_age_minimum (Some 16%Z) Params.none) = [teen]).
Proof.
  intros stored age. subst stored age. split; [|split].
  - rewrite !search_apply_filters, !apply_filters_satisfies_all, filter_filter.
    apply List.filter_ext. intros opp. apply satisfies_all_set_age_minimum.
  - intros opp. rewrite search_apply_filters, apply_filters_satisfies_all.
    rewrite List.filter_In, satisfies_all_set_age_minimum.
    unfold age_callback. cbn. rewrite Z.leb_le. tauto.
  - reflexivity.
Qed.

(** C3. Whatever the criteria, the returned list is a subsequence of the
    stored list: the stored order is kept, and no opportunity occurs more
    often than in the stored list. *)
Theorem search_returns_subsequence (ccData : CCData.t) (p : Params.t) :
  let stored := Volunteer.opportunities (CCData.volunteer ccData) in
  sublist (search ccData p) stored /\ submseteq (search ccData p) stored.
Proof.
  intros stored. subst stored.
  assert (H : sublist (search ccData p)
                (Volunteer.opportunities (CCData.volunteer ccData))).
  { rewrite search_apply_filters, apply_filters_satisfies_all.
    apply filter_sublist. }
  split; [exact H | apply sublist_submseteq; exact H].
Qed.

(** C4, as the code has it. The keyword criterion keeps an opportunity if
    and only if the lower-cased keyword occurs in the lower-cased title or
    in the lower-cased description, each searched on its own; every
    opportunity kept this way also has the keyword in the concatenation of
    the two. *)
Theorem keyword_matches_title_or_description
  (ccData : CCData.t) (keyword : string) :
  let stored := Volunteer.opportunities (CCData.volunteer ccData) in
  let found := search ccData (Params.set_keyword (Some keyword) Params.none) in
  found
  = List.filter
      (fun opp =>
         includes (toLowerCase (Opportunity.title opp)) (toLowerCase keyword)
         || includes (toLowerCase (Opportunity.description opp))
              (toLowerCase keyword))
      stored
  /\ forallb (keyword_in_concatenation keyword) found = true.
Proof.
  intros stored found. subst stored found.
  rewrite search_apply_filters. unfold apply_filters. cbn.
  unfold filter_keyword. cbn [Params.keyword].
  assert (Heq : (if truthy keyword
                 then List.filter (keyword_callback (toLowerCase keyword))
                        (Volunteer.opportunities (CCData.volunteer ccData))
                 else Volunteer.opportunities (CCData.volunteer ccData))
                = List.filter (keyword_callback (toLowerCase keyword))
                    (Volunteer.opportunities (CCData.volunteer ccData))).
  { destruct keyword as [|c k]; [|reflexivity].
    cbn. symmetry. erewrite List.filter_ext; [apply filter_true|].
    intros opp. unfold keyword_callback. cbn [toLowerCase].
    rewrite includes_empty. reflexivity. }
  rewrite Heq. split; [reflexivity|].
  rewrite forallb_forall. intros opp Hin. apply List.filter_In in Hin.
  destruct Hin as [_ Hcb]. unfold keyword_callback in Hcb.
  unfold keyword_in_concatenation. rewrite toLowerCase_append.
  apply orb_true_iff in Hcb. destruct Hcb as [Ht|Hd].
  - apply includes_append_l. exact Ht.
  - apply includes_append_r. exact Hd.
Qed.

(** C4, as the specification words it, fails: the keyword [serverevening]
    occurs in the lower-cased concatenation of the title [Meal Server] and
    the description [Evening shift], across the boundary, and the search does
    not return the opportunity. *)
Lemma keyword_across_boundary_not_matched :
  let opp := sample_opportunity "Meal Server" "Evening shift" 18 false [] in
  keyword_in_concatenation "serverevening" opp = true
  /\ search (sample_ccData [opp])
       (Params.set_keyword (Some "serverevening") Params.none) = [].
Proof. split; reflexivity. Qed.

(** C9. An empty string supplied as [keyword], [city] or [skill] gives the
    same response as leaving that argument out, whatever the other
    arguments: on typed data, and on any document, where the two calls also
    throw or return alike. *)
Theorem empty_string_criterion_is_omitted (ccData : CCData.t) (p : Params.t)
  (document : Raw.CCData.t) :
  (get_volunteer_opportunities ccData (Params.set_keyword (Some "") p)
   = get_volunteer_opportunities ccData (Params.set_keyword None p)
   /\ get_volunteer_opportunities ccData (Params.set_city (Some "") p)
      = get_volunteer_opportunities ccData (Params.set_city None p)
   /\ get_volunteer_opportunities ccData (Params.set_skill (Some "") p)
      = get_volunteer_opportunities ccData (Params.set_skill None p))
  /\ (Raw.get_volunteer_opportunities document (Params.set_keyword (Some "") p)
      = Raw.get_volunteer_opportunities document (Params.set_keyword None p)
      /\ Raw.get_volunteer_opportunities document (Params.set_city (Some "") p)
         = Raw.get_volunteer_opportunities document (Params.set_city None p)
      /\ Raw.get_volunteer_opportunities document (Params.set_skill (Some "") p)
         = Raw.get_volunteer_opportunities document (Params.set_skill None p)).
Proof.
  split.
  - (* the guard [if (params.x)] is false on the empty string *)
    repeat split; unfold get_volunteer_opportunities, apply_filters;
      cbn [filter_keyword filter_city filter_skill Params.keyword Params.city
           Params.skill Params.set_keyword Params.set_city Params.set_skill];
      rewrite ?truthy_empty; reflexivity.
  - repeat split; reflexivity.
Qed.

(** C10. [group_friendly] is an equality test on the stored flag: on top of
    any other criteria the search is the search without it filtered by
    [flag = g]; alone, an opportunity is returned if and only if it is stored
    and its flag equals [g]; and [false] is not a no-op, it drops the
    group-friendly opportunity of a two-element list. *)
Theorem group_friendly_is_boolean_equality
  (ccData : CCData.t) (p : Params.t) (g : bool) :
  let stored := Volunteer.opportunities (CCData.volunteer ccData) in
  let flag opp := Requirements.group_friendly (Opportunity.requirements opp) in
  search ccData (Params.set_group_friendly (Some g) p)
  = List.filter (fun opp => Bool.eqb (flag opp) g)
      (search ccData (Params.set_group_friendly None p))
  /\ (forall opp,
        In opp (search ccData (Params.set_group_friendly (Some g) Params.none))
        <-> In opp stored /\ flag opp = g)
  /\ (let team := sample_opportunity "Meal service" "Serve dinner" 14 true [] in
      let solo := sample_opportunity "Shelter desk" "Overnight shift" 18 false [] in
      search (sample_ccData [team; solo])
        (Params.set_group_friendly (Some false) Params.none) = [solo]
      /\ search (sample_ccData [team; solo])
           (Params.set_group_friendly (Some true) Params.none) = [team]).
Proof.
  intros stored flag. subst stored flag. split; [|split].
  - rewrite !search_apply_filters, !apply_filters_satisfies_all, filter_filter.
    apply List.filter_ext. intros opp. apply satisfies_all_set_group_friendly.
  - intros opp. rewrite search_apply_filters, apply_filters_satisfies_all.
    rewrite List.filter_In, satisfies_all_set_group_friendly.
    unfold group_callback. cbn. rewrite Bool.eqb_true_iff. tauto.
  - split; reflexivity.
Qed.

(** ** Typed data never reaches a catch

    On a document with every field present the body of each handler returns
    what the typed handler computes. *)

Lemma bind_returned {A B : Type} (a : A) (k : A -> Raw.M B) :
  (inr a : Raw.M A) ≫= k = k a.
Proof. reflexivity. Qed.

Lemma read_present {A : Type} (a : A) (name : string) :
  Raw.read (Some a) name = inr a.
Proof. reflexivity. Qed.

Lemma filterM_total {A B : Type} (g : A -> B) (f : A -> bool)
  (fM : B -> Raw.M bool) :
  (forall x, fM (g x) = inr (f x)) ->
  forall l, Raw.filterM fM (map g l) = inr (map g (List.filter f l)).
Proof.
  intros H l. induction l as [|x l IH]; [reflexivity|].
  cbn [map Raw.filterM List.filter]. rewrite H, bind_returned, IH, bind_returned.
  destruct (f x); reflexivity.
Qed.

Lemma mapM_idx_total {A B C : Type} (g : A -> B) (f : A -> nat -> C)
  (fM : B -> nat -> Raw.M C) :
  (forall x i, fM (g x) i = inr (f x i)) ->
  forall l i, Raw.mapM_idx fM i (map g l) = inr (map_idx f i l).
Proof.
  intros H l. induction l as [|x l IH]; intros i; [reflexivity|].
  cbn [map Raw.mapM_idx map_idx]. rewrite H, bind_returned, IH, bind_returned.
  reflexivity.
Qed.

Lemma keyword_callback_total (kw : string) (opp : Opportunity.t) :
  Raw.keyword_callback kw (raw_opportunity opp) = inr (keyword_callback kw opp).
Proof.
  unfold Raw.keyword_callback, keyword_callback. cbn.
  destruct (includes (toLowerCase (Opportunity.title opp)) kw); reflexivity.
Qed.

Lemma raw_apply_filters_total (p : Params.t) (l : list Opportunity.t) :
  Raw.apply_filters p (map raw_opportunity l)
  = inr (map raw_opportunity (apply_filters p l)).
Proof.
  unfold Raw.apply_filters, apply_filters.
  assert (H1 : forall l, Raw.filter_keyword p (map raw_opportunity l)
                         = inr (map raw_opportunity (filter_keyword p l))).
  { intros l0. unfold Raw.filter_keyword, filter_keyword.
    destruct (Params.keyword p) as [k|]; [destruct (truthy k)|]; try reflexivity.
    apply filterM_total, keyword_callback_total. }
  assert (H2 : forall l, Raw.filter_city p (map raw_opportunity l)
                         = inr (map raw_opportunity (filter_city p l))).
  { intros l0. unfold Raw.filter_city, filter_city.
    destruct (Params.city p) as [k|]; [destruct (truthy k)|]; try reflexivity.
    apply filterM_total. reflexivity. }
  assert (H3 : forall l, Raw.filter_schedule_type p (map raw_opportunity l)
                         = inr (map raw_opportunity (filter_schedule_type p l))).
  { intros l0. unfold Raw.filter_schedule_type, filter_schedule_type.
    destruct (Params.schedule_type p) as [t|]; [|reflexivity].
    destruct (truthy (schedule_type_string t)); [|reflexivity].
    apply filterM_total. reflexivity. }
  assert (H4 : forall l, Raw.filter_age_minimum p (map raw_opportunity l)
                         = inr (map raw_opportunity (filter_age_minimum p l))).
  { intros l0. unfold Raw.filter_age_minimum, filter_age_minimum.
    destruct (Params.age_minimum p); [|reflexivity].
    apply filterM_total. reflexivity. }
  assert (H5 : forall l, Raw.filter_group_friendly p (map raw_opportunity l)
                         = inr (map raw_opportunity (filter_group_friendly p l))).
  { intros l0. unfold Raw.filter_group_friendly, filter_group_friendly.
    destruct (Params.group_friendly p); [|reflexivity].
    apply filterM_total. reflexivity. }
  assert (H6 : forall l, Raw.filter_skill p (map raw_opportunity l)
                         = inr (map raw_opportunity (filter_skill p l))).
  { intros l0. unfold Raw.filter_skill, filter_skill.
    destruct (Params.skill p) as [k|]; [destruct (truthy k)|]; try reflexivity.
    apply filterM_total. reflexivity. }
  rewrite H1, bind_returned, H2, bind_returned, H3, bind_returned,
    H4, bind_returned, H5, bind_returned, H6. reflexivity.
Qed.

Lemma raw_copy_opportunity (l : list Opportunity.t) :
  map Raw.copy_opportunity (map raw_opportunity l)
  = map raw_opportunity (map copy_opportunity l).
Proof. rewrite !map_map. apply map_ext. intros opp. reflexivity. Qed.

Lemma raw_opportunity_paragraph_total (opp : Opportunity.t) (idx : nat) :
  Raw.opportunity_paragraph (raw_opportunity opp) idx
  = inr (opportunity_paragraph opp idx).
Proof.
  unfold Raw.opportunity_paragraph, opportunity_paragraph. cbn.
  destruct (Requirements.group_friendly (Opportunity.requirements opp));
    reflexivity.
Qed.

Lemma raw_textSummary_total (v : Volunteer.t) (l : list Opportunity.t) :
  Raw.textSummary (raw_volunteer v) (map raw_opportunity l)
  = inr (textSummary (GeneralInfo.main_contact (Volunteer.general_info v)) l).
Proof.
  unfold Raw.textSummary, textSummary. rewrite length_map.
  destruct (length l =? 0)%nat; [reflexivity|].
  rewrite (mapM_idx_total raw_opportunity opportunity_paragraph)
    by apply raw_opportunity_paragraph_total.
  reflexivity.
Qed.

(** On typed data the body of [get_volunteer_opportunities] returns the
    response of the typed handler: the catch is not reached. *)
Lemma get_volunteer_opportunities_returns (ccData : CCData.t) (p : Params.t) :
  Raw.get_volunteer_opportunities (raw_ccData ccData) p
  = returned (get_volunteer_opportunities ccData p).
Proof.
  unfold Raw.get_volunteer_opportunities, Raw.get_volunteer_opportunities_body.
  cbn [raw_ccData Raw.CCData.volunteer].
  change (Raw.Volunteer.opportunities (raw_volunteer (CCData.volunteer ccData)))
    with (map raw_opportunity (Volunteer.opportunities (CCData.volunteer ccData))).
  rewrite raw_apply_filters_total, bind_returned.
  cbn [raw_volunteer Raw.Volunteer.general_info].
  rewrite read_present, bind_returned.
  change {| Raw.Volunteer.opportunities :=
              map raw_opportunity (Volunteer.opportunities (CCData.volunteer ccData));
            Raw.Volunteer.general_info :=
              Some {| Raw.GeneralInfo.main_contact :=
                        Some (raw_contact (GeneralInfo.main_contact
                                (Volunteer.general_info (CCData.volunteer ccData)))) |} |}
    with (raw_volunteer (CCData.volunteer ccData)).
  rewrite raw_textSummary_total, bind_returned, raw_copy_opportunity.
  reflexivity.
Qed.

Lemma raw_accepted_items_text (l : list AcceptedItem.t) :
  map Raw.accepted_item_text (map raw_accepted_item l)
  = map accepted_item_text l.
Proof. rewrite map_map. apply map_ext. intros c. reflexivity. Qed.

Lemma raw_drop_off_locations_text (l : list DropOffLocation.t) :
  map Raw.drop_off_text (map raw_drop_off l) = map drop_off_text l.
Proof. rewrite map_map. apply map_ext. intros c. reflexivity. Qed.

Lemma raw_donation_textContent_total (d : Donations.t) (type : string) :
  Raw.donation_textContent (raw_donations d) type
  = inr (donation_textContent d type).
Proof.
  unfold Raw.donation_textContent, donation_textContent.
  destruct (selected_branch type) as [[]|]; try reflexivity.
  unfold Raw.in_kind_text, in_kind_text. cbn.
  rewrite raw_accepted_items_text, raw_drop_off_locations_text. reflexivity.
Qed.

(** On typed data the body of [get_donation_options] returns the response
    of the typed handler. *)
Lemma get_donation_options_returns (ccData : CCData.t) (type : string) :
  Raw.get_donation_options (raw_ccData ccData) type
  = returned (get_donation_options ccData type).
Proof.
  unfold Raw.get_donation_options, Raw.get_donation_options_body.
  cbn [raw_ccData Raw.CCData.donations].
  rewrite raw_donation_textContent_total, bind_returned. reflexivity.
Qed.

Lemma raw_service_matches_total (query : string) (svc : Service.t) :
  Raw.service_matches query (raw_service svc) = inr (service_matches query svc).
Proof. reflexivity. Qed.

Lemma raw_service_blocks_total (org : Organization.t) (query : string) :
  Raw.service_blocks (raw_organization org) query
  = inr (map raw_block (service_blocks org query)).
Proof.
  unfold Raw.service_blocks, service_blocks.
  cbn [raw_organization Raw.Organization.services].
  rewrite read_present, bind_returned.
  rewrite (filterM_total raw_service (service_matches query))
    by apply raw_service_matches_total.
  rewrite bind_returned, length_map.
  destruct (0 <? length (List.filter (service_matches query) (Organization.services org)))%nat.
  - rewrite !map_map. reflexivity.
  - cbn [map]. rewrite map_map. reflexivity.
Qed.

Lemma raw_locations_text (l : list OrgLocation.t) :
  map Raw.location_text (map raw_org_location l) = map location_text l.
Proof. rewrite map_map. apply map_ext. intros c. reflexivity. Qed.

Lemma raw_events_text (l : list Event.t) :
  map Raw.event_text (map raw_event l) = map event_text l.
Proof. rewrite map_map. apply map_ext. intros c. reflexivity. Qed.

Lemma raw_contact_blocks_total (org : Organization.t) :
  Raw.contact_blocks (raw_organization org)
  = inr (map raw_block (contact_blocks org)).
Proof.
  unfold Raw.contact_blocks, contact_blocks. cbn.
  rewrite raw_locations_text. reflexivity.
Qed.

Lemma raw_events_blocks_total (org : Organization.t) :
  Raw.events_blocks (raw_organization org)
  = inr (map raw_block (events_blocks org)).
Proof.
  unfold Raw.events_blocks, events_blocks. cbn.
  rewrite raw_events_text. reflexivity.
Qed.

Lemma raw_push_if_total (cond : bool) (blocks : list Block.t)
  (rawBlocks : Raw.M (list Raw.Block.t)) (results : list Block.t) :
  rawBlocks = inr (map raw_block blocks) ->
  Raw.push_if cond rawBlocks (map raw_block results)
  = inr (map raw_block (if cond then results ++ blocks else results)).
Proof.
  intros ->. unfold Raw.push_if. destruct cond; [|reflexivity].
  rewrite bind_returned, map_app. reflexivity.
Qed.

Lemma raw_org_results_total (org : Organization.t) (query : string) :
  Raw.org_results (raw_organization org) query
  = inr (map raw_block (org_results org query)).
Proof.
  unfold Raw.org_results, org_results.
  change (@nil Raw.Block.t) with (map raw_block []).
  rewrite (raw_push_if_total _ (mission_blocks org)) by reflexivity.
  rewrite bind_returned.
  rewrite (raw_push_if_total _ (service_blocks org query))
    by apply raw_service_blocks_total.
  rewrite bind_returned.
  rewrite (raw_push_if_total _ (contact_blocks org))
    by apply raw_contact_blocks_total.
  rewrite bind_returned.
  rewrite (raw_push_if_total _ (events_blocks org))
    by apply raw_events_blocks_total.
  rewrite bind_returned.
  rewrite (raw_push_if_total _ (stats_blocks org)) by reflexivity.
  rewrite bind_returned, length_map.
  apply raw_push_if_total. reflexivity.
Qed.

Lemma raw_block_text (l : list Block.t) :
  map Raw.block_text (map raw_block l) = map block_text l.
Proof. rewrite map_map. apply map_ext. intros b. reflexivity. Qed.

(** On typed data the body of [search_org_info] returns the response of the
    typed handler. *)
Lemma search_org_info_returns (ccData : CCData.t) (query : string) :
  Raw.search_org_info (raw_ccData ccData) query
  = returned (search_org_info ccData query).
Proof.
  unfold Raw.search_org_info, Raw.search_org_info_body.
  cbn [raw_ccData Raw.CCData.organization].
  rewrite raw_org_results_total, bind_returned, raw_block_text. reflexivity.
Qed.

(** ** The zero-result response *)

(** C5. When no opportunity satisfies the criteria the handler answers
    normally, without reaching its catch: the text is the fixed no-match
    message, which names the volunteer contact e-mail and phone; the
    structured content holds an empty opportunity list and the general
    contact block; the widget annotations are present. *)
Theorem zero_result_response (ccData : CCData.t) (p : Params.t) :
  search ccData p = [] ->
  let r := get_volunteer_opportunities ccData p in
  result_text r = no_match_text
  /\ includes (result_text r) volunteer_contact_phone = true
  /\ includes (result_text r) volunteer_contact_email = true
  /\ ToolResult.structuredContent r
     = Some {| StructuredContent.opportunities := [];
               StructuredContent.contact :=
                 GeneralInfo.main_contact
                   (Volunteer.general_info (CCData.volunteer ccData)) |}
  /\ ToolResult._meta r = Some volunteer_meta
  /\ Raw.get_volunteer_opportunities (raw_ccData ccData) p = returned r.
Proof.
  intros Hempty r. subst r. rewrite search_apply_filters in Hempty.
  assert (Htext : result_text (get_volunteer_opportunities ccData p)
                  = no_match_text).
  { unfold result_text, get_volunteer_opportunities. cbn.
    rewrite Hempty. reflexivity. }
  rewrite Htext. repeat split; try reflexivity.
  - unfold get_volunteer_opportunities. cbn. rewrite Hempty. reflexivity.
  - apply get_volunteer_opportunities_returns.
Qed.

Lemma zero_result_response_witness :
  let ccData :=
    sample_ccData
      [ sample_opportunity "Meal service" "Serve dinner" 14 true [];
        sample_opportunity "Shelter desk" "Overnight shift" 18 false [] ] in
  let p := Params.set_city (Some "Nonexistent City") Params.none in
  search ccData p = []
  /\ result_text (get_volunteer_opportunities ccData p) = no_match_text.
Proof.
  intros ccData p. split; [reflexivity|].
  apply (zero_result_response ccData p). reflexivity.
Defined.

(** ** Donation lookup *)

Lemma GetDonationOptionsSchema_spec (type : string) (t : DonationType.t) :
  GetDonationOptionsSchema type = Some t <-> type = DonationType.to_string t.
Proof.
  unfold GetDonationOptionsSchema.
  destruct (String.eqb_spec type "online") as [->|H1].
  { destruct t; cbn; split; intros H; try reflexivity; discriminate. }
  destruct (String.eqb_spec type "in_kind") as [->|H2].
  { destruct t; cbn; split; intros H; try reflexivity; discriminate. }
  destruct (String.eqb_spec type "vehicle") as [->|H3].
  { destruct t; cbn; split; intros H; try reflexivity; discriminate. }
  split; [discriminate|]. intros ->. destruct t; cbn in *; congruence.
Qed.

(** C6. On each of the three type values the donation lookup is defined:
    validation accepts the value, the [if] chain takes the arm of that type
    and no other, and the response is the rendering of that type's section,
    returned without a catch. A call is refused by validation exactly when
    its type is none of the three values, and is handled exactly when it is
    one of them. *)
Theorem donation_lookup_total (ccData : CCData.t) :
  let donations := CCData.donations ccData in
  (forall t : DonationType.t,
     let type := DonationType.to_string t in
     GetDonationOptionsSchema type = Some t
     /\ selected_branch type = Some t
     /\ call_get_donation_options ccData type
        = Handled (ToolResult.text_only (variant_text donations t))
     /\ Raw.get_donation_options (raw_ccData ccData) type
        = returned (ToolResult.text_only (variant_text donations t)))
  /\ (forall type : string,
        call_get_donation_options ccData type = InvalidArguments
        <-> forall t, type <> DonationType.to_string t)
  /\ (forall (type : string) (r : ToolResult.t),
        call_get_donation_options ccData type = Handled r
        <-> exists t, type = DonationType.to_string t
                      /\ r = ToolResult.text_only (variant_text donations t)).
Proof.
  intros donations. subst donations.
  assert (Hcall : forall t,
    call_get_donation_options ccData (DonationType.to_string t)
    = Handled (ToolResult.text_only (variant_text (CCData.donations ccData) t))).
  { intros []; reflexivity. }
  split; [|split].
  - intros t type. subst type. repeat split.
    + destruct t; reflexivity.
    + destruct t; reflexivity.
    + apply Hcall.
    + rewrite get_donation_options_returns. destruct t; reflexivity.
  - intros type. unfold call_get_donation_options.
    destruct (GetDonationOptionsSchema type) as [t|] eqn:E.
    + apply GetDonationOptionsSchema_spec in E. split; [discriminate|].
      intros H. exfalso. exact (H t E).
    + split; [|reflexivity]. intros _ t Ht.
      apply GetDonationOptionsSchema_spec in Ht. congruence.
  - intros type r. split.
    + unfold call_get_donation_options.
      destruct (GetDonationOptionsSchema type) as [t|] eqn:E; [|discriminate].
      apply GetDonationOptionsSchema_spec in E. intros H. exists t.
      split; [exact E|]. injection H as <-. destruct t; reflexivity.
    + intros [t [-> ->]]. apply Hcall.
Qed.

(** ** Exceptions *)

Lemma throws_returned {A : Type} (a : A) :
  throws_only_read_errors (inr a : Raw.M A).
Proof. intros e H. discriminate H. Qed.

Lemma throws_mret {A : Type} (a : A) :
  throws_only_read_errors (mret a : Raw.M A).
Proof. intros e H. discriminate H. Qed.

Lemma throws_read {A : Type} (v : option A) (name : string) :
  throws_only_read_errors (Raw.read v name).
Proof.
  intros e H. destruct v as [a|]; [discriminate H|].
  injection H as <-. exists name. reflexivity.
Qed.

Lemma throws_bind {A B : Type} (m : Raw.M A) (k : A -> Raw.M B) :
  throws_only_read_errors m ->
  (forall a, throws_only_read_errors (k a)) ->
  throws_only_read_errors (m ≫= k).
Proof.
  intros Hm Hk e H. destruct m as [e'|a].
  - injection H as <-. apply Hm. reflexivity.
  - rewrite bind_returned in H. exact (Hk a e H).
Qed.

Lemma throws_filterM {A : Type} (f : A -> Raw.M bool) (l : list A) :
  (forall x, throws_only_read_errors (f x)) ->
  throws_only_read_errors (Raw.filterM f l).
Proof.
  intros Hf. induction l as [|x l IH]; cbn [Raw.filterM].
  - apply throws_mret.
  - apply throws_bind; [apply Hf|]. intros b.
    apply throws_bind; [exact IH|]. intros r. apply throws_mret.
Qed.

Lemma throws_mapM_idx {A B : Type} (f : A -> nat -> Raw.M B) (l : list A)
  (i : nat) :
  (forall x j, throws_only_read_errors (f x j)) ->
  throws_only_read_errors (Raw.mapM_idx f i l).
Proof.
  intros Hf. revert i. induction l as [|x l IH]; intros i; cbn [Raw.mapM_idx].
  - apply throws_mret.
  - apply throws_bind; [apply Hf|]. intros y.
    apply throws_bind; [apply IH|]. intros r. apply throws_mret.
Qed.

Ltac throws_step :=
  first
    [ apply throws_mret
    | apply throws_returned
    | apply throws_read
    | apply throws_filterM; intros ?
    | apply throws_mapM_idx; intros ? ?
    | apply throws_bind; [|intros ?]
    | match goal with
      | |- throws_only_read_errors (match ?x with _ => _ end) => destruct x
      end ].

Lemma volunteer_body_throws (ccData : Raw.CCData.t) (p : Params.t) :
  throws_only_read_errors (Raw.get_volunteer_opportunities_body ccData p).
Proof.
  unfold Raw.get_volunteer_opportunities_body, Raw.apply_filters,
    Raw.filter_keyword, Raw.filter_city, Raw.filter_schedule_type,
    Raw.filter_age_minimum, Raw.filter_group_friendly, Raw.filter_skill,
    Raw.textSummary.
  cbv zeta.
  repeat first
    [ throws_step
    | progress unfold Raw.keyword_callback, Raw.city_callback,
        Raw.schedule_callback, Raw.age_callback, Raw.group_callback,
        Raw.skill_callback, Raw.opportunity_paragraph ].
Qed.

Lemma donation_body_throws (ccData : Raw.CCData.t) (type : string) :
  throws_only_read_errors (Raw.get_donation_options_body ccData type).
Proof.
  unfold Raw.get_donation_options_body, Raw.donation_textContent.
  repeat first
    [ throws_step
    | progress unfold Raw.online_text, Raw.in_kind_text, Raw.vehicle_text ].
Qed.

Lemma org_body_throws (ccData : Raw.CCData.t) (query : string) :
  throws_only_read_errors (Raw.search_org_info_body ccData query).
Proof.
  unfold Raw.search_org_info_body, Raw.org_results.
  repeat first
    [ throws_step
    | progress unfold Raw.push_if, Raw.mission_blocks, Raw.service_blocks,
        Raw.contact_blocks, Raw.events_blocks, Raw.stats_blocks,
        Raw.default_blocks, Raw.service_matches ].
Qed.

Lemma includes_longer (s a b : string) :
  includes s (a +:+ b) = true -> includes s a = true.
Proof.
  rewrite !includes_spec. intros [x [y ->]].
  exists x, (b +:+ y). rewrite !append_assoc. reflexivity.
Qed.

Lemma text_hides_read_errors (text : string) (e : Raw.exn) :
  includes text "Cannot read properties of undefined (reading '" = false ->
  read_error e ->
  includes text (error_message e) = false.
Proof.
  intros Htext [name ->]. cbn [error_message].
  destruct (includes text
              ("Cannot read properties of undefined (reading '" +:+ name +:+ "')"))
    eqn:E; [|reflexivity].
  apply includes_longer in E. congruence.
Qed.

(** C7. In each of the three handlers, whenever the statements inside [try]
    throw, the call still returns a result: one content item of type [text]
    holding the handler's fixed apology, spelled out below, with no
    structured content and no annotations. The thrown value goes to the
    console and nowhere else: the text does not contain the message of the
    error, whichever read of the body failed, and it names the contact of
    the handler's own domain. *)
Theorem handlers_isolate_exceptions (ccData : Raw.CCData.t) :
  (forall (p : Params.t) (e : Raw.exn),
     Raw.get_volunteer_opportunities_body ccData p = inl e ->
     let outcome := Raw.get_volunteer_opportunities ccData p in
     Raw.Outcome.result outcome
     = {| Raw.ToolResult.content :=
            [ {| TextContent.type := "text";
                 TextContent.text :=
                   "Sorry, an error occurred while searching for volunteer opportunities. Please try again or contact volunteer@cctwincities.org at (612) 204-8435." |} ];
          Raw.ToolResult.structuredContent := None;
          Raw.ToolResult._meta := None |}
     /\ Raw.Outcome.console outcome
        = [ ("Error in get_volunteer_opportunities:", e) ]
     /\ includes (outcome_text outcome) (error_message e) = false
     /\ includes (outcome_text outcome) "volunteer@cctwincities.org" = true
     /\ includes (outcome_text outcome) "(612) 204-8435" = true)
  /\ (forall (type : string) (e : Raw.exn),
        Raw.get_donation_options_body ccData type = inl e ->
        let outcome := Raw.get_donation_options ccData type in
        Raw.Outcome.result outcome
        = {| Raw.ToolResult.content :=
               [ {| TextContent.type := "text";
                    TextContent.text :=
                      "Sorry, an error occurred while getting donation information. Please contact giving.info@cctwincities.org at (612) 204-8374." |} ];
             Raw.ToolResult.structuredContent := None;
             Raw.ToolResult._meta := None |}
        /\ Raw.Outcome.console outcome = [ ("Error in get_donation_options:", e) ]
        /\ includes (outcome_text outcome) (error_message e) = false
        /\ includes (outcome_text outcome) "giving.info@cctwincities.org" = true
        /\ includes (outcome_text outcome) "(612) 204-8374" = true)
  /\ (forall (query : string) (e : Raw.exn),
        Raw.search_org_info_body ccData query = inl e ->
        let outcome := Raw.search_org_info ccData query in
        Raw.Outcome.result outcome
        = {| Raw.ToolResult.content :=
               [ {| TextContent.type := "text";
                    TextContent.text :=
                      "Sorry, an error occurred while searching organization information. Please contact info@cctwincities.org at (612) 204-8500." |} ];
             Raw.ToolResult.structuredContent := None;
             Raw.ToolResult._meta := None |}
        /\ Raw.Outcome.console outcome = [ ("Error in search_org_info:", e) ]
        /\ includes (outcome_text outcome) (error_message e) = false
        /\ includes (outcome_text outcome) "info@cctwincities.org" = true
        /\ includes (outcome_text outcome) "(612) 204-8500" = true).
Proof.
  split; [|split].
  - intros p e H outcome. subst outcome.
    pose proof (volunteer_body_throws ccData p e H) as Herr.
    unfold Raw.get_volunteer_opportunities. rewrite H.
    split; [reflexivity|]. split; [reflexivity|].
    split; [|split; reflexivity].
    apply text_hides_read_errors; [reflexivity|exact Herr].
  - intros type e H outcome. subst outcome.
    pose proof (donation_body_throws ccData type e H) as Herr.
    unfold Raw.get_donation_options. rewrite H.
    split; [reflexivity|]. split; [reflexivity|].
    split; [|split; reflexivity].
    apply text_hides_read_errors; [reflexivity|exact Herr].
  - intros query e H outcome. subst outcome.
    pose proof (org_body_throws ccData query e H) as Herr.
    unfold Raw.search_org_info. rewrite H.
    split; [reflexivity|]. split; [reflexivity|].
    split; [|split; reflexivity].
    apply text_hides_read_errors; [reflexivity|exact Herr].
Qed.

Lemma handlers_isolate_exceptions_witness :
  let keyword := Params.set_keyword (Some "dinner") Params.none in
  Raw.get_volunteer_opportunities_body malformed_ccData keyword
  = inl (Raw.TypeError
           "Cannot read properties of undefined (reading 'toLowerCase')")
  /\ outcome_text (Raw.get_volunteer_opportunities malformed_ccData keyword)
     = "Sorry, an error occurred while searching for volunteer opportunities. Please try again or contact volunteer@cctwincities.org at (612) 204-8435."
  /\ outcome_text (Raw.get_donation_options malformed_ccData "online")
     = "Sorry, an error occurred while getting donation information. Please contact giving.info@cctwincities.org at (612) 204-8374."
  /\ outcome_text (Raw.search_org_info malformed_ccData "Mission")
     = "Sorry, an error occurred while searching organization information. Please contact info@cctwincities.org at (612) 204-8500.".
Proof.
  intros keyword.
  destruct (handlers_isolate_exceptions malformed_ccData) as [Hv [Hd Ho]].
  split; [reflexivity|]. split; [|split].
  - unfold outcome_text.
    rewrite (proj1 (Hv keyword _ eq_refl)). reflexivity.
  - unfold outcome_text.
    rewrite (proj1 (Hd "online" _ eq_refl)). reflexivity.
  - unfold outcome_text.
    rewrite (proj1 (Ho "Mission" _ eq_refl)). reflexivity.
Defined.

(** ** Organization search *)

(** C8. For the query [mission] the result list is the mission block
    followed by the history block and nothing else: the mission category is
    triggered and none of the services, contact, events and statistics
    categories is. *)
Theorem mission_query_returns_mission_and_history (ccData : CCData.t) :
  let org := CCData.organization ccData in
  search_org_info_results ccData "mission" = mission_blocks org
  /\ map Block.heading (search_org_info_results ccData "mission")
     = ["Mission"; "History"]
  /\ mission_triggered (toLowerCase "mission") = true
  /\ services_triggered (toLowerCase "mission") = false
  /\ contact_triggered (toLowerCase "mission") = false
  /\ events_triggered (toLowerCase "mission") = false
  /\ stats_triggered (toLowerCase "mission") = false.
Proof. intros org. repeat split. Qed.

(** * Further properties of the code *)

(** ** The search as a whole *)

Lemma satisfies_clear_other (c c' : Criterion) (p : Params.t)
  (opp : Opportunity.t) :
  c <> c' -> satisfies c' (clear c p) opp = satisfies c' p opp.
Proof. destruct c, c'; intros H; try reflexivity; congruence. Qed.

Lemma satisfies_all_clear (c : Criterion) (p : Params.t) (opp : Opportunity.t) :
  satisfies_all p opp = satisfies_all (clear c p) opp && satisfies c p opp.
Proof.
  unfold satisfies_all, criteria. cbn [forallb].
  destruct c;
    repeat match goal with
      | |- context [satisfies ?c' (clear ?c p) opp] =>
          first [ rewrite (satisfies_clear_other c c' p opp) by discriminate
                | rewrite (satisfies_clear c p opp) ]
      end;
    btauto.
Qed.

Lemma pass_satisfies (c : Criterion) (p : Params.t) (l : list Opportunity.t) :
  pass c p l = List.filter (satisfies c p) l.
Proof.
  destruct c; cbn [pass];
    auto using filter_keyword_satisfies, filter_city_satisfies,
      filter_schedule_type_satisfies, filter_age_minimum_satisfies,
      filter_group_friendly_satisfies, filter_skill_satisfies.
Qed.

Lemma run_passes_filter (order : list Criterion) (p : Params.t)
  (l : list Opportunity.t) :
  run_passes order p l
  = List.filter (fun opp => forallb (fun c => satisfies c p opp) order) l.
Proof.
  unfold run_passes. revert l.
  induction order as [|c order IH]; intros l; cbn [fold_left forallb].
  - symmetry. apply filter_true.
  - rewrite IH, pass_satisfies, filter_filter. reflexivity.
Qed.

Lemma forallb_Permutation {A : Type} (f : A -> bool) (l1 l2 : list A) :
  Permutation l1 l2 -> forallb f l1 = forallb f l2.
Proof.
  induction 1 as [|x l1 l2 _ IH|x y l|l1 l2 l3 _ IH1 _ IH2]; cbn [forallb].
  - reflexivity.
  - rewrite IH. reflexivity.
  - btauto.
  - congruence.
Qed.

(** X1. The search judges each stored opportunity on its own: searching a
    list made of two parts gives the results of the first part followed by
    the results of the second. *)
Theorem search_distributes_over_append
  (p : Params.t) (l1 l2 : list Opportunity.t) :
  apply_filters p (l1 ++ l2) = apply_filters p l1 ++ apply_filters p l2.
Proof. rewrite !apply_filters_satisfies_all. apply List.filter_app. Qed.

(** X2. Every criterion narrows: the search with criterion [c] is the
    search without it, filtered by [c]; so it is a subsequence of the search
    without [c]. Searching the results again with the same criteria changes
    nothing. *)
Theorem search_narrows_with_each_criterion
  (c : Criterion) (p : Params.t) (l : list Opportunity.t) :
  apply_filters p l = List.filter (satisfies c p) (apply_filters (clear c p) l)
  /\ sublist (apply_filters p l) (apply_filters (clear c p) l)
  /\ apply_filters p (apply_filters p l) = apply_filters p l.
Proof.
  assert (H : apply_filters p l
              = List.filter (satisfies c p) (apply_filters (clear c p) l)).
  { rewrite !apply_filters_satisfies_all, filter_filter.
    apply List.filter_ext. intros opp. apply satisfies_all_clear. }
  split; [exact H|split].
  - rewrite H. apply filter_sublist.
  - rewrite !apply_filters_satisfies_all, filter_filter.
    apply List.filter_ext. intros opp. destruct (satisfies_all p opp); reflexivity.
Qed.

(** X3. The result does not depend on the order of the six passes: run in
    any order, each once, they give what the handler computes. *)
Theorem search_is_independent_of_pass_order
  (order : list Criterion) (p : Params.t) (l : list Opportunity.t) :
  Permutation order criteria ->
  run_passes order p l = apply_filters p l.
Proof.
  intros Hperm. rewrite run_passes_filter, apply_filters_satisfies_all.
  apply List.filter_ext. intros opp. unfold satisfies_all.
  apply forallb_Permutation. exact Hperm.
Qed.

Lemma search_is_independent_of_pass_order_witness :
  let p := Params.set_age_minimum (Some 16%Z)
             (Params.set_keyword (Some "dinner") Params.none) in
  let l := [ sample_opportunity "Meal service" "Serve dinner" 14 true [];
             sample_opportunity "Shelter desk" "Overnight shift" 18 false [] ] in
  run_passes [Skill; GroupFriendly; AgeMinimum; ScheduleKind; City; Keyword] p l
  = apply_filters p l.
Proof.
  intros p l.
  apply (search_is_independent_of_pass_order
           [Skill; GroupFriendly; AgeMinimum; ScheduleKind; City; Keyword] p l).
  change [Skill; GroupFriendly; AgeMinimum; ScheduleKind; City; Keyword]
    with (rev criteria).
  symmetry. apply Permutation_rev.
Defined.

Lemma toLowerCase_truthy (s : string) : truthy (toLowerCase s) = truthy s.
Proof. destruct s; reflexivity. Qed.

Lemma toLowerCase_same_truthy (k k' : string) :
  toLowerCase k = toLowerCase k' -> truthy k = truthy k'.
Proof.
  intros H. rewrite <- (toLowerCase_truthy k), <- (toLowerCase_truthy k'), H.
  reflexivity.
Qed.

(** X4. The three string criteria ignore letter case: two keywords, cities
    or skills with the same lower-casing give the same response. *)
Theorem string_criteria_ignore_case
  (ccData : CCData.t) (p : Params.t) (k k' : string) :
  toLowerCase k = toLowerCase k' ->
  get_volunteer_opportunities ccData (Params.set_keyword (Some k) p)
  = get_volunteer_opportunities ccData (Params.set_keyword (Some k') p)
  /\ get_volunteer_opportunities ccData (Params.set_city (Some k) p)
     = get_volunteer_opportunities ccData (Params.set_city (Some k') p)
  /\ get_volunteer_opportunities ccData (Params.set_skill (Some k) p)
     = get_volunteer_opportunities ccData (Params.set_skill (Some k') p).
Proof.
  intros H. pose proof (toLowerCase_same_truthy k k' H) as Ht.
  repeat split; unfold get_volunteer_opportunities, apply_filters;
    cbn [filter_keyword filter_city filter_skill Params.keyword Params.city
         Params.skill Params.set_keyword Params.set_city Params.set_skill];
    rewrite H, Ht; reflexivity.
Qed.

Lemma string_criteria_ignore_case_witness :
  let ccData :=
    sample_ccData
      [ sample_opportunity "Meal service" "Serve dinner" 14 true [];
        sample_opportunity "Shelter desk" "Overnight shift" 18 false [] ] in
  toLowerCase "DINNER" = toLowerCase "dinner"
  /\ get_volunteer_opportunities ccData
       (Params.set_keyword (Some "DINNER") Params.none)
     = get_volunteer_opportunities ccData
         (Params.set_keyword (Some "dinner") Params.none).
Proof.
  intros ccData. split; [reflexivity|].
  apply (string_criteria_ignore_case ccData Params.none "DINNER" "dinner").
  reflexivity.
Defined.

(** X5. A non-empty [skill] criterion never returns an opportunity that
    lists no skill: every returned opportunity has a listed skill whose
    lower-casing contains the lower-cased criterion. *)
Theorem skill_criterion_needs_a_listed_skill
  (ccData : CCData.t) (p : Params.t) (skill : string) (opp : Opportunity.t) :
  skill <> "" ->
  In opp (search ccData (Params.set_skill (Some skill) p)) ->
  exists s,
    In s (Requirements.skills (Opportunity.requirements opp))
    /\ includes (toLowerCase s) (toLowerCase skill) = true.
Proof.
  intros Hne Hin.
  rewrite search_apply_filters, apply_filters_satisfies_all in Hin.
  apply List.filter_In in Hin. destruct Hin as [_ Hall].
  apply satisfies_all_forall with (c := Skill) in Hall.
  cbn in Hall. destruct skill as [|a skill]; [congruence|].
  cbn [truthy String.eqb negb] in Hall.
  unfold skill_callback in Hall. apply existsb_exists in Hall. exact Hall.
Qed.

Lemma skill_criterion_needs_a_listed_skill_witness :
  let sewing := sample_opportunity "Mending" "Repair coats" 14 false ["Sewing"] in
  let desk := sample_opportunity "Shelter desk" "Overnight shift" 18 false [] in
  search (sample_ccData [desk; sewing]) (Params.set_skill (Some "sew") Params.none)
  = [sewing]
  /\ exists s,
       In s (Requirements.skills (Opportunity.requirements sewing))
       /\ includes (toLowerCase s) (toLowerCase "sew") = true.
Proof.
  intros sewing desk. split; [reflexivity|].
  apply (skill_criterion_needs_a_listed_skill
           (sample_ccData [desk; sewing]) Params.none "sew" sewing).
  - discriminate.
  - change (In sewing [sewing]). left. reflexivity.
Defined.

(** X6. Alone, [schedule_type] returns exactly the stored opportunities
    whose schedule type is the chosen string, letter for letter, and [city]
    returns exactly those whose lower-cased city contains the lower-cased
    criterion. *)
Theorem schedule_is_exact_and_city_is_substring
  (ccData : CCData.t) (t : ScheduleType) (city : string) (opp : Opportunity.t) :
  let stored := Volunteer.opportunities (CCData.volunteer ccData) in
  (In opp (search ccData (Params.set_schedule_type (Some t) Params.none))
   <-> In opp stored
       /\ Schedule.type (Opportunity.schedule opp) = schedule_type_string t)
  /\ (In opp (search ccData (Params.set_city (Some city) Params.none))
      <-> In opp stored
          /\ includes (toLowerCase (Location.city (Opportunity.location opp)))
               (toLowerCase city) = true).
Proof.
  intros stored. subst stored. split.
  - rewrite search_apply_filters, apply_filters_satisfies_all, List.filter_In.
    rewrite satisfies_all_forall. split.
    + intros [Hin Hall]. split; [exact Hin|].
      specialize (Hall ScheduleKind). cbn in Hall.
      apply String.eqb_eq. exact Hall.
    + intros [Hin Heq]. split; [exact Hin|].
      intros c. destruct c; try reflexivity.
      cbn. unfold schedule_callback. apply String.eqb_eq. exact Heq.
  - rewrite search_apply_filters, apply_filters_satisfies_all, List.filter_In.
    rewrite satisfies_all_forall. split.
    + intros [Hin Hall]. split; [exact Hin|].
      specialize (Hall City). cbn in Hall.
      destruct city as [|a city]; [apply includes_empty|exact Hall].
    + intros [Hin Hinc]. split; [exact Hin|].
      intros c. destruct c; try reflexivity.
      cbn. destruct (truthy city); [exact Hinc|reflexivity].
Qed.

(** ** Organization search *)

Lemma service_blocks_nonempty (org : Organization.t) (query : string) :
  service_blocks org query <> [].
Proof.
  unfold service_blocks.
  destruct (List.filter (service_matches query) (Organization.services org))
    as [|svc l]; cbn; discriminate.
Qed.

(** X7. The result list of the organization search is never empty. When no
    category keyword occurs in the query it is the single default block;
    otherwise it is made of the blocks of the triggered categories and of
    nothing else, in the fixed order mission, services, contact, events,
    statistics. *)
Theorem org_results_by_category (org : Organization.t) (query : string) :
  let triggered :=
    (if mission_triggered query then mission_blocks org else [])
    ++ (if services_triggered query then service_blocks org query else [])
    ++ (if contact_triggered query then contact_blocks org else [])
    ++ (if events_triggered query then events_blocks org else [])
    ++ (if stats_triggered query then stats_blocks org else []) in
  org_results org query <> []
  /\ org_results org query
     = if mission_triggered query || services_triggered query
          || contact_triggered query || events_triggered query
          || stats_triggered query
       then triggered
       else default_blocks org.
Proof.
  intros triggered. subst triggered. unfold org_results.
  pose proof (service_blocks_nonempty org query) as Hs.
  assert (Hm : mission_blocks org <> []) by discriminate.
  assert (Hc : contact_blocks org <> []) by discriminate.
  assert (He : events_blocks org <> []) by discriminate.
  assert (Ht : stats_blocks org <> []) by discriminate.
  assert (Hd : default_blocks org <> []) by discriminate.
  destruct (mission_blocks org) as [|m ms]; [congruence|].
  destruct (service_blocks org query) as [|b bs]; [congruence|].
  destruct (contact_blocks org) as [|c cs]; [congruence|].
  destruct (events_blocks org) as [|e es]; [congruence|].
  destruct (stats_blocks org) as [|t ts]; [congruence|].
  destruct (default_blocks org) as [|d ds]; [congruence|].
  destruct (mission_triggered query), (services_triggered query),
    (contact_triggered query), (events_triggered query),
    (stats_triggered query);
    cbn [app length Nat.eqb orb]; (split; [discriminate|]);
    repeat first [ rewrite <- app_assoc | rewrite app_nil_r
                 | progress cbn [app] ];
    reflexivity.
Qed.

(** X8. An empty token in the query (a leading, trailing or doubled space)
    occurs in every text, so every service matches: when the store has
    services, the services category then yields one block per stored
    service, in stored order, and never the overview. *)
Theorem empty_query_token_matches_every_service
  (org : Organization.t) (query : string) :
  In "" (split_space query) ->
  Organization.services org <> [] ->
  service_blocks org query
  = map (fun svc => block org (Service.name svc) (Service.description svc))
      (Organization.services org).
Proof.
  intros Htoken Hservices.
  assert (Hall : forall svc, service_matches query svc = true).
  { intros svc. unfold service_matches. apply existsb_exists.
    exists "". split; [exact Htoken | apply includes_empty]. }
  unfold service_blocks.
  rewrite (List.filter_ext _ (fun _ => true) Hall), filter_true.
  destruct (Organization.services org) as [|svc l]; [congruence|reflexivity].
Qed.

Lemma empty_query_token_matches_every_service_witness :
  In "" (split_space "shelter ")
  /\ map Block.heading (service_blocks sample_organization "shelter ")
     = ["Food Services"].
Proof.
  assert (Htoken : In "" (split_space "shelter ")) by (right; left; reflexivity).
  split; [exact Htoken|].
  rewrite (empty_query_token_matches_every_service
             sample_organization "shelter " Htoken); [reflexivity|discriminate].
Defined.

(** ** Donation lookup on any document *)

Lemma selected_branch_spec (type : string) (t : DonationType.t) :
  selected_branch type = Some t <-> type = DonationType.to_string t.
Proof. apply GetDonationOptionsSchema_spec. Qed.

Lemma selected_branch_none (type : string) :
  (forall t, type <> DonationType.to_string t) -> selected_branch type = None.
Proof.
  intros H. destruct (selected_branch type) as [t|] eqn:E; [|reflexivity].
  apply selected_branch_spec in E. exfalso. exact (H t E).
Qed.

(** X9. Past validation, a [type] that is none of the three values makes
    the handler return an empty text: no arm of the chain runs, nothing is
    read from the looked-up section and nothing is thrown, whatever the
    document holds. *)
Theorem unknown_donation_type_gives_empty_text
  (document : Raw.CCData.t) (type : string) :
  (forall t, type <> DonationType.to_string t) ->
  Raw.get_donation_options document type
  = {| Raw.Outcome.result := Raw.ToolResult.text_only "";
       Raw.Outcome.console := [] |}.
Proof.
  intros H. unfold Raw.get_donation_options, Raw.get_donation_options_body,
    Raw.donation_textContent.
  rewrite (selected_branch_none type H). reflexivity.
Qed.

Lemma unknown_donation_type_gives_empty_text_witness :
  Raw.get_donation_options malformed_ccData "cash"
  = {| Raw.Outcome.result := Raw.ToolResult.text_only "";
       Raw.Outcome.console := [] |}.
Proof.
  apply (unknown_donation_type_gives_empty_text malformed_ccData "cash").
  intros []; discriminate.
Defined.

(** X10. When the section of the requested donation type is absent from
    the document, the first read of the arm throws and the handler answers
    with the donation apology, the thrown [TypeError] going to the console. *)
Theorem missing_donation_section_is_caught (document : Raw.CCData.t) :
  let donations := Raw.CCData.donations document in
  let caught property type :=
    Raw.get_donation_options document type
    = Raw.caught "Error in get_donation_options:"
        (Raw.TypeError
           ("Cannot read properties of undefined (reading '" +:+ property +:+ "')"))
        Raw.donation_apology in
  (Raw.Donations.online donations = None -> caught "donation_page_url" "online")
  /\ (Raw.Donations.in_kind donations = None -> caught "accepted_items" "in_kind")
  /\ (Raw.Donations.vehicle donations = None ->
      caught "process_description" "vehicle").
Proof.
  cbv zeta. unfold Raw.get_donation_options, Raw.get_donation_options_body,
    Raw.donation_textContent.
  repeat split; intros H; cbn [selected_branch String.eqb Ascii.eqb Bool.eqb];
    cbn -[String.append]; rewrite H; reflexivity.
Qed.

Lemma missing_donation_section_is_caught_witness :
  Raw.Outcome.result (Raw.get_donation_options malformed_ccData "online")
  = Raw.ToolResult.text_only Raw.donation_apology.
Proof.
  destruct (missing_donation_section_is_caught malformed_ccData) as [H _].
  rewrite (H eq_refl). reflexivity.
Defined.

(** ** Missing fields in the opportunity search *)


Lemma filterM_keeps_all {A : Type} (f : A -> Raw.M bool) (l : list A) :
  (forall x, In x l -> f x = inr true) -> Raw.filterM f l = inr l.
Proof.
  induction l as [|y l IH]; intros H; [reflexivity|].
  cbn [Raw.filterM]. rewrite (H y) by (left; reflexivity).
  rewrite bind_returned, IH by (intros x Hx; apply H; right; exact Hx).
  reflexivity.
Qed.

(** X11. Without [volunteer.general_info] in the document every
    opportunity search, whatever its arguments and even when nothing matches,
    answers with the volunteer apology and writes one line to the console. *)
Theorem missing_general_info_is_always_caught
  (document : Raw.CCData.t) (p : Params.t) :
  Raw.Volunteer.general_info (Raw.CCData.volunteer document) = None ->
  Raw.Outcome.result (Raw.get_volunteer_opportunities document p)
  = Raw.ToolResult.text_only Raw.volunteer_apology
  /\ length (Raw.Outcome.console (Raw.get_volunteer_opportunities document p)) = 1.
Proof.
  intros H. unfold Raw.get_volunteer_opportunities,
    Raw.get_volunteer_opportunities_body.
  destruct (Raw.apply_filters p
              (Raw.Volunteer.opportunities (Raw.CCData.volunteer document)))
    as [e|opportunities]; [split; reflexivity|].
  rewrite bind_returned, H. split; reflexivity.
Qed.

Lemma missing_general_info_is_always_caught_witness :
  Raw.Outcome.result (Raw.get_volunteer_opportunities malformed_ccData Params.none)
  = Raw.ToolResult.text_only Raw.volunteer_apology.
Proof.
  apply (missing_general_info_is_always_caught malformed_ccData Params.none).
  reflexivity.
Defined.

(** X12. The keyword pass reads a description only when the title does not
    match: records whose titles all contain the keyword pass without a
    throw even if they have no description, while a record whose title does
    not match and whose description is missing makes the pass throw. *)
Theorem matching_title_shields_missing_description
  (p : Params.t) (k : string) (l : list Raw.Opportunity.t) :
  ((forall opp, In opp l ->
      exists t, Raw.Opportunity.title opp = Some t
                /\ includes (toLowerCase t) (toLowerCase k) = true) ->
   Raw.filter_keyword (Params.set_keyword (Some k) p) l = inr l)
  /\ (forall opp t,
        Raw.Opportunity.title opp = Some t ->
        includes (toLowerCase t) (toLowerCase k) = false ->
        Raw.Opportunity.description opp = None ->
        Raw.filter_keyword (Params.set_keyword (Some k) p) (opp :: l)
        = inl (Raw.TypeError
                 "Cannot read properties of undefined (reading 'toLowerCase')")).
Proof.
  split.
  - intros H. unfold Raw.filter_keyword. cbn [Params.keyword Params.set_keyword].
    destruct (truthy k); [|reflexivity].
    apply filterM_keeps_all. intros opp Hin.
    destruct (H opp Hin) as [t [Ht Hinc]].
    unfold Raw.keyword_callback. rewrite Ht, read_present, bind_returned, Hinc.
    reflexivity.
  - intros opp t Ht Hinc Hd.
    unfold Raw.filter_keyword. cbn [Params.keyword Params.set_keyword].
    destruct k as [|a k].
    { cbn [toLowerCase] in Hinc. rewrite includes_empty in Hinc. discriminate. }
    cbn [truthy String.eqb negb Raw.filterM].
    unfold Raw.keyword_callback. rewrite Ht, read_present, bind_returned, Hinc, Hd.
    reflexivity.
Qed.

Lemma matching_title_shields_missing_description_witness :
  Raw.filter_keyword (Params.set_keyword (Some "Dinner") Params.none)
    [titled_only "Serve dinner"]
  = inr [titled_only "Serve dinner"]
  /\ Raw.filter_keyword (Params.set_keyword (Some "lunch") Params.none)
       [titled_only "Serve dinner"]
     = inl (Raw.TypeError
              "Cannot read properties of undefined (reading 'toLowerCase')").
Proof.
  split.
  - apply (matching_title_shields_missing_description Params.none "Dinner"
             [titled_only "Serve dinner"]).
    intros opp [<-|[]]. exists "Serve dinner". split; reflexivity.
  - apply (matching_title_shields_missing_description Params.none "lunch" []
             ) with (t := "Serve dinner"); reflexivity.
Defined.



(** X14. On a document in which every field is present no handler reaches
    its catch: each of the three calls returns, with an empty console, the
    response computed on the typed data. *)
Theorem complete_documents_never_reach_a_catch
  (ccData : CCData.t) (p : Params.t) (type query : string) :
  Raw.get_volunteer_opportunities (raw_ccData ccData) p
  = returned (get_volunteer_opportunities ccData p)
  /\ Raw.get_donation_options (raw_ccData ccData) type
     = returned (get_donation_options ccData type)
  /\ Raw.search_org_info (raw_ccData ccData) query
     = returned (search_org_info ccData query).
Proof.
  split; [|split].
  - apply get_volunteer_opportunities_returns.
  - apply get_donation_options_returns.
  - apply search_org_info_returns.
Qed.

(** ** The session registry and [POST /messages] *)

Lemma apply_events_lookup_other {T : Type} (events : list (SessionEvent T))
  (transports : gmap string T) (sessionId : string) :
  (forall e, In e events -> session_of e <> sessionId) ->
  apply_events events transports !! sessionId = transports !! sessionId.
Proof.
  unfold apply_events. revert transports.
  induction events as [|e events IH]; intros transports H; [reflexivity|].
  cbn [fold_left]. rewrite IH by (intros e' He'; apply H; right; exact He').
  assert (He : session_of e <> sessionId) by (apply H; left; reflexivity).
  destruct e as [id t|id]; cbn [apply_event session_of] in *.
  - unfold establish. apply lookup_insert_ne. exact He.
  - unfold onclose. apply lookup_delete_ne. exact He.
Qed.

Lemma truthy_nonempty (s : string) : s <> "" -> truthy s = true.
Proof. destruct s; [congruence|reflexivity]. Qed.

(** X15. A message posted to an established session is handed to the
    transport registered for it, whatever sessions were established or
    closed under other identifiers in between. The identifiers are any
    strings but [__proto__], the one key whose assignment is not an own
    property. *)
Theorem established_session_receives_its_messages {T : Type}
  (transports : gmap string T) (handlePostMessage : T -> HandleOutcome)
  (sessionId : string) (transport : T) (events : list (SessionEvent T)) :
  sessionId <> "" ->
  sessionId <> "__proto__" ->
  (forall e, In e events ->
     session_of e <> sessionId /\ session_of e <> "__proto__") ->
  handled_by
    (post_messages
       (apply_events events (establish sessionId transport transports))
       handlePostMessage (Some sessionId))
  = Some transport.
Proof.
  intros Hne _ Hother. unfold post_messages, get_transport.
  rewrite (truthy_nonempty sessionId Hne). cbn [negb].
  rewrite apply_events_lookup_other by (intros e He; apply (Hother e He)).
  unfold establish. rewrite lookup_insert_eq.
  destruct (handlePostMessage transport); reflexivity.
Qed.

Lemma established_session_receives_its_messages_witness :
  handled_by
    (post_messages
       (apply_events [Established "b2" 2; Closed "c3"]
          (establish "a1" 1 (∅ : gmap string nat)))
       (fun _ => Completed) (Some "a1"))
  = Some 1.
Proof.
  apply (established_session_receives_its_messages
           (∅ : gmap string nat) (fun _ => Completed) "a1" 1
           [Established "b2" 2; Closed "c3"]).
  - discriminate.
  - discriminate.
  - intros e [<-|[<-|[]]]; split; discriminate.
Defined.

(** X16. Once a session is closed, a message posted to it is answered 404
    [Session not found] and reaches no transport, until the same identifier
    is established again. *)
Theorem closed_session_is_not_found {T : Type}
  (transports : gmap string T) (handlePostMessage : T -> HandleOutcome)
  (sessionId : string) (events : list (SessionEvent T)) :
  sessionId <> "" ->
  is_prototype_name sessionId = false ->
  (forall e, In e events ->
     session_of e <> sessionId /\ session_of e <> "__proto__") ->
  post_messages (apply_events events (onclose sessionId transports))
    handlePostMessage (Some sessionId)
  = replied 404 "Session not found".
Proof.
  intros Hne Hproto Hother. unfold post_messages, get_transport.
  rewrite (truthy_nonempty sessionId Hne). cbn [negb].
  rewrite apply_events_lookup_other by (intros e He; apply (Hother e He)).
  unfold onclose. rewrite lookup_delete_eq, Hproto. reflexivity.
Qed.

Lemma closed_session_is_not_found_witness :
  post_messages
    (apply_events [Established "b2" 2]
       (onclose "a1" (establish "a1" 1 (∅ : gmap string nat))))
    (fun _ => Completed) (Some "a1")
  = replied 404 "Session not found".
Proof.
  apply (closed_session_is_not_found
           (establish "a1" 1 (∅ : gmap string nat)) (fun _ => Completed) "a1"
           [Established "b2" 2]).
  - discriminate.
  - reflexivity.
  - intros e [<-|[]]; split; discriminate.
Defined.

(** X17. [POST /messages] answers 400 [Missing sessionId parameter] exactly
    when the [sessionId] parameter is absent or empty, and a transport is
    handed a message only if it is registered under the posted identifier. *)
Theorem post_without_session_id_is_bad_request {T : Type}
  (transports : gmap string T) (handlePostMessage : T -> HandleOutcome)
  (sessionId : option string) :
  (post_messages transports handlePostMessage sessionId
   = replied 400 "Missing sessionId parameter"
   <-> sessionId = None \/ sessionId = Some "")
  /\ (forall transport,
        handled_by (post_messages transports handlePostMessage sessionId)
        = Some transport ->
        exists id, sessionId = Some id /\ transports !! id = Some transport).
Proof.
  split.
  - split.
    + destruct sessionId as [[|a s]|]; [tauto| |tauto].
      unfold post_messages, get_transport, replied, Transports.
      rewrite (truthy_nonempty (String a s)) by discriminate. cbn [negb].
      destruct (transports !! String a s) as [t|].
      * destruct (handlePostMessage t); intros H; discriminate H.
      * destruct (is_prototype_name (String a s)); intros H; discriminate H.
    + intros [->| ->]; reflexivity.
  - intros transport. destruct sessionId as [id|]; [|intros H; discriminate H].
    unfold post_messages, get_transport, replied, Transports.
    destruct (negb (truthy id)); [intros H; discriminate H|].
    destruct (transports !! id) as [t|] eqn:E.
    + intros H. exists id. split; [reflexivity|].
      destruct (handlePostMessage t); cbn in H; congruence.
    + destruct (is_prototype_name id); intros H; discriminate H.
Qed.

(** X18. [transports] is a plain object, so a posted identifier that names
    a member of [Object.prototype] and no session is not [undefined]: the
    call of its missing [handlePostMessage] throws and the answer is 500
    [Error handling message], not 404. *)
Theorem inherited_member_is_a_server_error {T : Type}
  (transports : gmap string T) (handlePostMessage : T -> HandleOutcome)
  (name : string) :
  In name object_prototype_names ->
  transports !! name = None ->
  post_messages transports handlePostMessage (Some name)
  = replied 500 "Error handling message".
Proof.
  intros Hin Hnone. unfold post_messages, get_transport, Transports.
  rewrite Hnone.
  cbn [object_prototype_names In] in Hin.
  repeat (destruct Hin as [<-|Hin]; [reflexivity|]).
  destruct Hin.
Qed.

Lemma inherited_member_is_a_server_error_witness :
  post_messages (establish "a1" 1 (∅ : gmap string nat)) (fun _ => Completed)
    (Some "constructor")
  = replied 500 "Error handling message".
Proof.
  apply (inherited_member_is_a_server_error
           (establish "a1" 1 (∅ : gmap string nat)) (fun _ => Completed)
           "constructor").
  - left. reflexivity.
  - reflexivity.
Defined.

(** ** The CORS origin *)

Lemma split_on_nonempty (sep : ascii) (s : string) : split_on sep s <> [].
Proof.
  destruct s as [|c s]; cbn [split_on]; [discriminate|].
  destruct (Ascii.eqb c sep); [discriminate|].
  destruct (split_on sep s); discriminate.
Qed.

Lemma concat_cons_cons (sep x y : string) (l : list string) :
  String.concat sep (x :: y :: l) = x +:+ sep +:+ String.concat sep (y :: l).
Proof. reflexivity. Qed.

Lemma join_split_on (sep : ascii) (s : string) :
  join (split_on sep s) (String sep "") = s.
Proof.
  unfold join. induction s as [|c s IH]; [reflexivity|].
  cbn [split_on]. pose proof (split_on_nonempty sep s) as Hne.
  destruct (split_on sep s) as [|w ws]; [congruence|].
  destruct (Ascii.eqb_spec c sep) as [->|Hc].
  - rewrite concat_cons_cons, IH. reflexivity.
  - destruct ws as [|w' ws].
    + cbn [String.concat] in *. rewrite IH. reflexivity.
    + rewrite concat_cons_cons in *. rewrite append_cons, IH. reflexivity.
Qed.

Lemma split_on_no_separator (sep : ascii) (s w : string) :
  In w (split_on sep s) -> includes w (String sep "") = false.
Proof.
  revert w. induction s as [|c s IH]; intros w Hin.
  - destruct Hin as [<-|[]]. reflexivity.
  - cbn [split_on] in Hin. destruct (Ascii.eqb_spec c sep) as [->|Hc].
    + destruct Hin as [<-|Hin]; [reflexivity|apply IH; exact Hin].
    + pose proof (split_on_nonempty sep s) as Hne.
      destruct (split_on sep s) as [|w0 ws]; [congruence|].
      destruct Hin as [<-|Hin].
      * cbn [includes String.prefix].
        destruct (ascii_dec sep c) as [->|_]; [congruence|].
        rewrite (IH w0) by (left; reflexivity). reflexivity.
      * apply IH. right. exact Hin.
Qed.

(** X19. The CORS origin is the wildcard only when [ALLOWED_ORIGINS] is
    not set. When it is set, even to the empty string, the origin is a
    non-empty list of comma-free entries whose comma-join is the variable's
    value; for the empty string that is the single entry [""]. *)
Theorem cors_origin_is_wildcard_only_when_unset
  (ALLOWED_ORIGINS : option string) (value : string) :
  (cors_origin ALLOWED_ORIGINS = AnyOrigin <-> ALLOWED_ORIGINS = None)
  /\ (exists allowed,
        cors_origin (Some value) = Origins allowed
        /\ allowed <> []
        /\ join allowed "," = value
        /\ forallb (fun entry => negb (includes entry ",")) allowed = true)
  /\ cors_origin (Some "") = Origins [""].
Proof.
  split; [|split].
  - destruct ALLOWED_ORIGINS; cbn; split; congruence.
  - exists (split_on ","%char value). split; [reflexivity|]. split; [|split].
    + apply split_on_nonempty.
    + apply join_split_on.
    + apply forallb_forall. intros entry Hin.
      rewrite (split_on_no_separator _ _ _ Hin). reflexivity.
  - reflexivity.
Qed.

(** ** The volunteer widget *)

Lemma append_empty_r (s : string) : s +:+ "" = s.
Proof.
  induction s as [|c s IH]; [reflexivity|]. rewrite append_cons, IH. reflexivity.
Qed.

Lemma includes_self (s : string) : includes s s = true.
Proof.
  apply includes_spec. exists "", "". rewrite append_empty_l, append_empty_r.
  reflexivity.
Qed.

Lemma parse_schedule_type_spec (s : string) (t : ScheduleType) :
  parse_schedule_type s = Some t -> s = schedule_type_string t.
Proof.
  unfold parse_schedule_type.
  destruct (String.eqb_spec s "one-time") as [->|_];
    [intros H; injection H as <-; reflexivity|].
  destruct (String.eqb_spec s "weekly") as [->|_];
    [intros H; injection H as <-; reflexivity|].
  destruct (String.eqb_spec s "flexible") as [->|_];
    [intros H; injection H as <-; reflexivity|].
  destruct (String.eqb_spec s "ongoing") as [->|_];
    [intros H; injection H as <-; reflexivity|].
  discriminate.
Qed.

(** X20. The local filters of the widget and the filters of the server
    agree: whenever the call built from the two drop-down values passes
    validation, the server's search for it returns exactly what the local
    filters keep of the stored list. *)
Theorem refresh_agrees_with_local_filters
  (ccData : CCData.t) (filterCity filterSchedule : string) (p : Params.t) :
  Widget.refresh_params filterCity filterSchedule = Some p ->
  search ccData p
  = Widget.filteredOpps filterCity filterSchedule
      (Volunteer.opportunities (CCData.volunteer ccData)).
Proof.
  intros H. rewrite search_apply_filters.
  unfold Widget.refresh_params, Widget.or_undefined in H.
  unfold Widget.filteredOpps, apply_filters.
  destruct (truthy filterSchedule) eqn:Es.
  - destruct (parse_schedule_type filterSchedule) as [t|] eqn:Et; [|discriminate].
    injection H as <-. apply parse_schedule_type_spec in Et. subst filterSchedule.
    assert (Ht : truthy (schedule_type_string t) = true) by (destruct t; reflexivity).
    destruct (truthy filterCity) eqn:Ec;
      cbn [filter_keyword filter_city filter_schedule_type filter_age_minimum
           filter_group_friendly filter_skill Params.keyword Params.city
           Params.schedule_type Params.age_minimum Params.group_friendly
           Params.skill Params.set_schedule_type Params.set_city Params.none];
      rewrite ?Ec, Ht; reflexivity.
  - injection H as <-.
    destruct (truthy filterCity) eqn:Ec;
      cbn [filter_keyword filter_city filter_schedule_type filter_age_minimum
           filter_group_friendly filter_skill Params.keyword Params.city
           Params.schedule_type Params.age_minimum Params.group_friendly
           Params.skill Params.set_schedule_type Params.set_city Params.none];
      rewrite ?Ec; reflexivity.
Qed.

Lemma refresh_agrees_with_local_filters_witness :
  let ccData :=
    sample_ccData
      [ sample_opportunity "Meal service" "Serve dinner" 14 true [];
        sample_opportunity "Shelter desk" "Overnight shift" 18 false [] ] in
  let p := Params.set_schedule_type (Some weekly)
             (Params.set_city (Some "Minneapolis") Params.none) in
  Widget.refresh_params "Minneapolis" "weekly" = Some p
  /\ search ccData p
     = Widget.filteredOpps "Minneapolis" "weekly"
         (Volunteer.opportunities (CCData.volunteer ccData)).
Proof.
  intros ccData p. split; [reflexivity|].
  apply (refresh_agrees_with_local_filters ccData "Minneapolis" "weekly" p).
  reflexivity.
Defined.

Lemma unique_from_In (seen l : list string) (x : string) :
  In x (Widget.unique_from seen l) <-> In x l /\ ~ In x seen.
Proof.
  revert seen. induction l as [|y l IH]; intros seen; cbn [Widget.unique_from].
  - cbn. tauto.
  - destruct (existsb (String.eqb y) seen) eqn:E.
    + apply existsb_exists in E. destruct E as [z [Hz Heq]].
      apply String.eqb_eq in Heq. subst z.
      rewrite IH. cbn [In]. split.
      * intros [Hin Hseen]. tauto.
      * intros [[<-|Hin] Hseen]; [contradiction|tauto].
    + assert (Hy : ~ In y seen).
      { intros Hin. apply not_true_iff_false in E. apply E.
        apply existsb_exists. exists y. split; [exact Hin|apply String.eqb_refl]. }
      cbn [In]. rewrite IH. cbn [In]. split.
      * intros [<-|[Hin Hseen]]; [tauto|]. split; [tauto|].
        intros Hs. apply Hseen. right. exact Hs.
      * intros [[<-|Hin] Hseen]; [tauto|].
        destruct (String.eqb_spec y x) as [->|Hne]; [tauto|].
        right. split; [exact Hin|]. intros [Heq|Hs]; [congruence|tauto].
Qed.

Lemma unique_from_NoDup (seen l : list string) :
  List.NoDup (Widget.unique_from seen l).
Proof.
  revert seen. induction l as [|y l IH]; intros seen; cbn [Widget.unique_from].
  - constructor.
  - destruct (existsb (String.eqb y) seen); [apply IH|].
    constructor; [|apply IH].
    rewrite unique_from_In. intros [_ Hseen]. apply Hseen. left. reflexivity.
Qed.

Lemma sort_In (l : list string) (x : string) : In x (Widget.sort l) <-> In x l.
Proof.
  unfold Widget.sort. split; apply Permutation_in.
  - apply merge_sort_Permutation.
  - symmetry. apply merge_sort_Permutation.
Qed.

Lemma options_spec {A : Type} (f : A -> string) (l : list A) (x : string) :
  In x (Widget.sort (Widget.unique (map f l))) <-> exists a, In a l /\ f a = x.
Proof.
  rewrite sort_In. unfold Widget.unique. rewrite unique_from_In, in_map_iff.
  cbn [In]. split.
  - intros [[a [Ha Hin]] _]. exists a. tauto.
  - intros [a [Hin Ha]]. split; [exists a; tauto | tauto].
Qed.

Lemma options_sorted_distinct (l : list string) :
  Sorted String.le (Widget.sort (Widget.unique l))
  /\ List.NoDup (Widget.sort (Widget.unique l)).
Proof.
  unfold Widget.sort. split.
  - apply Sorted_merge_sort. apply _.
  - apply (Permutation_NoDup (l := Widget.unique l)).
    + symmetry. apply merge_sort_Permutation.
    + apply unique_from_NoDup.
Qed.

(** X21. The options of the two drop-down lists are in ascending order,
    hold no value twice, and are exactly the cities, respectively the
    schedule types, of the opportunities the widget received. *)
Theorem dropdown_options_are_sorted_and_distinct
  (opportunities : list Opportunity.t) (x : string) :
  (Sorted String.le (Widget.cities opportunities)
   /\ List.NoDup (Widget.cities opportunities)
   /\ (In x (Widget.cities opportunities)
       <-> exists opp, In opp opportunities
                       /\ Location.city (Opportunity.location opp) = x))
  /\ (Sorted String.le (Widget.scheduleTypes opportunities)
      /\ List.NoDup (Widget.scheduleTypes opportunities)
      /\ (In x (Widget.scheduleTypes opportunities)
          <-> exists opp, In opp opportunities
                          /\ Schedule.type (Opportunity.schedule opp) = x)).
Proof.
  unfold Widget.cities, Widget.scheduleTypes. split.
  - split; [apply options_sorted_distinct|].
    split; [apply options_sorted_distinct|apply options_spec].
  - split; [apply options_sorted_distinct|].
    split; [apply options_sorted_distinct|apply options_spec].
Qed.

(** X22. Choosing one value offered by a drop-down list, the other filter
    left on [All], never leads to the [No opportunities match your filters]
    view: the widget shows a list that contains an opportunity of the chosen
    city, respectively schedule type. *)
Theorem listed_choice_shows_a_match
  (data : StructuredContent.t) (choice : string) :
  let opportunities := StructuredContent.opportunities data in
  (In choice (Widget.cities opportunities) ->
   exists shown opp,
     Widget.render (Some data) choice ""
     = Widget.OpportunityList shown (Widget.cities opportunities)
         (Widget.scheduleTypes opportunities)
     /\ In opp shown
     /\ Location.city (Opportunity.location opp) = choice)
  /\ (In choice (Widget.scheduleTypes opportunities) ->
      exists shown opp,
        Widget.render (Some data) "" choice
        = Widget.OpportunityList shown (Widget.cities opportunities)
            (Widget.scheduleTypes opportunities)
        /\ In opp shown
        /\ Schedule.type (Opportunity.schedule opp) = choice).
Proof.
  intros opportunities. subst opportunities.
  assert (Hshow : forall fc fs opp,
    In opp (Widget.filteredOpps fc fs (StructuredContent.opportunities data)) ->
    Widget.render (Some data) fc fs
    = Widget.OpportunityList
        (Widget.filteredOpps fc fs (StructuredContent.opportunities data))
        (Widget.cities (StructuredContent.opportunities data))
        (Widget.scheduleTypes (StructuredContent.opportunities data))).
  { intros fc fs opp Hin. unfold Widget.render.
    assert (Hstored : In opp (StructuredContent.opportunities data)).
    { unfold Widget.filteredOpps in Hin.
      destruct (truthy fc), (truthy fs);
        repeat (apply List.filter_In in Hin; destruct Hin as [Hin _]);
        exact Hin. }
    destruct (Widget.filteredOpps fc fs (StructuredContent.opportunities data))
      as [|o l]; [destruct Hin|].
    destruct (StructuredContent.opportunities data) as [|o' l']; [destruct Hstored|].
    reflexivity. }
  split.
  - intros Hin. apply options_spec in Hin. destruct Hin as [opp [Hin Hcity]].
    assert (Hkept : In opp (Widget.filteredOpps choice ""
                              (StructuredContent.opportunities data))).
    { unfold Widget.filteredOpps. cbn [truthy String.eqb negb].
      destruct (truthy choice); [|exact Hin].
      apply List.filter_In. split; [exact Hin|].
      unfold Widget.city_callback. rewrite Hcity. apply includes_self. }
    eexists _, opp. split; [apply (Hshow _ _ opp Hkept)|]. split; assumption.
  - intros Hin. apply options_spec in Hin. destruct Hin as [opp [Hin Htype]].
    assert (Hkept : In opp (Widget.filteredOpps "" choice
                              (StructuredContent.opportunities data))).
    { unfold Widget.filteredOpps. cbn [truthy String.eqb negb].
      destruct (truthy choice); [|exact Hin].
      apply List.filter_In. split; [exact Hin|].
      unfold Widget.schedule_callback. apply String.eqb_eq. exact Htype. }
    eexists _, opp. split; [apply (Hshow _ _ opp Hkept)|]. split; assumption.
Qed.

Lemma listed_choice_shows_a_match_witness :
  let data :=
    {| StructuredContent.opportunities :=
         [ sample_opportunity "Meal service" "Serve dinner" 14 true [] ];
       StructuredContent.contact := sample_contact |} in
  In "Minneapolis" (Widget.cities (StructuredContent.opportunities data))
  /\ exists shown opp,
       Widget.render (Some data) "Minneapolis" ""
       = Widget.OpportunityList shown
           (Widget.cities (StructuredContent.opportunities data))
           (Widget.scheduleTypes (StructuredContent.opportunities data))
       /\ In opp shown
       /\ Location.city (Opportunity.location opp) = "Minneapolis".
Proof.
  intros data.
  assert (Hin : In "Minneapolis"
                  (Widget.cities (StructuredContent.opportunities data)))
    by (left; reflexivity).
  split; [exact Hin|].
  exact (proj1 (listed_choice_shows_a_match data "Minneapolis") Hin).
Defined.

(** ** The text summary *)

Lemma show_number_inj (a b : Z) : show_number a = show_number b -> a = b.
Proof.
  unfold show_number. intros H.
  assert (Hnil : forall z, Z.to_int z <> Decimal.Pos Decimal.Nil
                           /\ Z.to_int z <> Decimal.Neg Decimal.Nil).
  { intros [|q|q]; cbn; split; try discriminate;
      intros Hq; injection Hq as Hq; exact (Unsigned.to_uint_nonnil q Hq). }
  assert (Hint : Some (Z.to_int a) = Some (Z.to_int b)).
  { rewrite <- (NilZero.isi (Z.to_int a)) by apply Hnil.
    rewrite <- (NilZero.isi (Z.to_int b)) by apply Hnil.
    rewrite H. reflexivity. }
  injection Hint as Hint.
  rewrite <- (DecimalZ.of_to a), <- (DecimalZ.of_to b), Hint. reflexivity.
Qed.

Lemma show_number_digits (n : nat) :
  exists d, show_number (Z.of_nat n) = NilEmpty.string_of_uint d.
Proof.
  unfold show_number. destruct (Z.of_nat n) as [|q|q] eqn:E.
  - exists (Decimal.D0 Decimal.Nil). reflexivity.
  - exists (Pos.to_uint q). cbn.
    pose proof (Unsigned.to_uint_nonnil q) as Hq.
    destruct (Pos.to_uint q); [congruence|reflexivity..].
  - lia.
Qed.

Lemma digits_before_space (d : Decimal.uint) (x y : string) :
  NilEmpty.string_of_uint d +:+ String " " x = String "1" (String " " y) ->
  NilEmpty.string_of_uint d = "1".
Proof.
  destruct d as [|d|d|d|d|d|d|d|d|d|d]; cbn [NilEmpty.string_of_uint];
    rewrite ?append_cons, ?append_empty_l; intros H; try discriminate H.
  injection H as H.
  destruct d as [|d|d|d|d|d|d|d|d|d|d]; cbn [NilEmpty.string_of_uint] in *;
    rewrite ?append_cons, ?append_empty_l in H; try discriminate H.
  reflexivity.
Qed.

Lemma textSummary_shape (main_contact : Contact.t) (l : list Opportunity.t) :
  (l = [] /\ textSummary main_contact l = no_match_text)
  \/ (l <> []
      /\ exists rest,
           textSummary main_contact l
           = "Found " +:+ show_number (Z.of_nat (length l))
             +:+ " volunteer opportunit"
             +:+ (if (length l =? 1)%nat then "y" else "ies")
             +:+ ":" +:+ rest).
Proof.
  destruct l as [|o l]; [left; split; reflexivity|].
  right. split; [discriminate|]. eexists. reflexivity.
Qed.

(** X23. The first line of the text summary agrees in number with the
    matches: the text begins [Found 1 volunteer opportunity:] exactly when
    one opportunity matched, begins [Found n volunteer opportunities:] with
    the number of matches exactly when two or more did, and is the no-match
    message exactly when none did. *)
Theorem summary_noun_agrees_with_count (ccData : CCData.t) (p : Params.t) :
  let n := length (search ccData p) in
  let text := result_text (get_volunteer_opportunities ccData p) in
  (String.prefix "Found 1 volunteer opportunity:" text = true <-> n = 1)
  /\ (String.prefix
        ("Found " +:+ show_number (Z.of_nat n) +:+ " volunteer opportunities:")
        text = true
      <-> 2 <= n)
  /\ (text = no_match_text <-> n = 0).
Proof.
  intros n text. subst n text. rewrite search_apply_filters.
  change (result_text (get_volunteer_opportunities ccData p))
    with (textSummary
            (GeneralInfo.main_contact
               (Volunteer.general_info (CCData.volunteer ccData)))
            (apply_filters p (Volunteer.opportunities (CCData.volunteer ccData)))).
  generalize (GeneralInfo.main_contact
                (Volunteer.general_info (CCData.volunteer ccData))) as main.
  generalize (apply_filters p
                (Volunteer.opportunities (CCData.volunteer ccData))) as l.
  intros l main.
  destruct (textSummary_shape main l) as [[-> ->]|[Hne [rest Htext]]].
  { cbn [length]. repeat split; try (intros H; first [discriminate H | lia]). }
  rewrite Htext. clear Htext.
  assert (Hlen : 1 <= length l) by (destruct l; [congruence | cbn; lia]).
  destruct (show_number_digits (length l)) as [d Hd].
  split; [|split].
  - split.
    + intros H. apply prefix_spec in H. destruct H as [r H].
      change ("Found 1 volunteer opportunity:" +:+ r)
        with ("Found " +:+ String "1" (String " " ("volunteer opportunity:" +:+ r)))
        in H.
      apply (inj (String.app "Found ")) in H.
      rewrite Hd in H.
      change (" volunteer opportunit"
              +:+ (if (length l =? 1)%nat then "y" else "ies") +:+ ":" +:+ rest)
        with (String " " ("volunteer opportunit"
              +:+ (if (length l =? 1)%nat then "y" else "ies") +:+ ":" +:+ rest))
        in H.
      apply digits_before_space in H. rewrite <- Hd in H.
      apply (show_number_inj _ 1) in H. lia.
    + intros H. rewrite H. apply prefix_spec. exists rest. reflexivity.
  - split.
    + intros H. destruct (Nat.eq_dec (length l) 1) as [H1|H1]; [|lia].
      exfalso. rewrite H1 in H. apply prefix_spec in H. destruct H as [r H].
      revert H. generalize rest r. intros rest' r' H.
      vm_compute in H. discriminate H.
    + intros H. apply prefix_spec. exists rest.
      destruct (length l =? 1)%nat eqn:E; [apply Nat.eqb_eq in E; lia|].
      rewrite !append_assoc. reflexivity.
  - split; [|lia]. intros H. exfalso.
    change ("Found " +:+ show_number (Z.of_nat (length l))
            +:+ " volunteer opportunit"
            +:+ (if (length l =? 1)%nat then "y" else "ies") +:+ ":" +:+ rest)
      with (String "F" ("ound " +:+ show_number (Z.of_nat (length l))
            +:+ " volunteer opportunit"
            +:+ (if (length l =? 1)%nat then "y" else "ies") +:+ ":" +:+ rest))
      in H.
    discriminate H.
Qed.

Lemma includes_intro (s a x b : string) :
  s = a +:+ x +:+ b -> includes s x = true.
Proof. intros H. apply includes_spec. exists a, b. exact H. Qed.

Lemma map_idx_nth_error {A B : Type} (f : A -> nat -> B) (l : list A)
  (k i : nat) (x : A) :
  nth_error l i = Some x -> nth_error (map_idx f k l) i = Some (f x (k + i)).
Proof.
  revert k i. induction l as [|y l IH]; intros k i H.
  - destruct i; discriminate H.
  - destruct i as [|i]; cbn [map_idx nth_error] in *.
    + injection H as ->. rewrite Nat.add_0_r. reflexivity.
    + rewrite (IH (S k) i H). f_equal. f_equal. lia.
Qed.

Lemma join_nth_error (l : list string) (sep : string) (i : nat) (x : string) :
  nth_error l i = Some x -> exists a b, join l sep = a +:+ x +:+ b.
Proof.
  unfold join. revert i. induction l as [|y l IH]; intros i H.
  - destruct i; discriminate H.
  - destruct i as [|i]; cbn [nth_error] in H.
    + injection H as ->. destruct l as [|z l].
      * exists "", "". cbn [String.concat].
        rewrite append_empty_l, append_empty_r. reflexivity.
      * exists "", (sep +:+ String.concat sep (z :: l)).
        rewrite concat_cons_cons, append_empty_l. reflexivity.
    + destruct (IH i H) as [a [b Hab]]. destruct l as [|z l].
      * destruct i; discriminate H.
      * exists (y +:+ sep +:+ a), b.
        rewrite concat_cons_cons, Hab, !append_assoc. reflexivity.
Qed.

(** X24. Every returned opportunity is named in the text summary under
    its position in the returned list: the text contains the line head made
    of the position counted from 1, the title in bold and the city. *)
Theorem summary_numbers_every_match
  (ccData : CCData.t) (p : Params.t) (i : nat) (opp : Opportunity.t) :
  nth_error (search ccData p) i = Some opp ->
  includes (result_text (get_volunteer_opportunities ccData p))
    (show_number (Z.of_nat i + 1) +:+ ". **" +:+ Opportunity.title opp
     +:+ "** - " +:+ Location.city (Opportunity.location opp))
  = true.
Proof.
  rewrite search_apply_filters.
  change (result_text (get_volunteer_opportunities ccData p))
    with (textSummary
            (GeneralInfo.main_contact
               (Volunteer.general_info (CCData.volunteer ccData)))
            (apply_filters p (Volunteer.opportunities (CCData.volunteer ccData)))).
  generalize (GeneralInfo.main_contact
                (Volunteer.general_info (CCData.volunteer ccData))) as main.
  generalize (apply_filters p
                (Volunteer.opportunities (CCData.volunteer ccData))) as l.
  intros l main Hnth.
  assert (Hne : (length l =? 0)%nat = false).
  { destruct l; [destruct i; discriminate Hnth | reflexivity]. }
  unfold textSummary. rewrite Hne.
  pose proof (map_idx_nth_error opportunity_paragraph l 0 i opp Hnth) as Hpar.
  destruct (join_nth_error _ nl _ _ Hpar) as [a [b Hjoin]].
  rewrite Hjoin. cbn [Nat.add].
  do 7 apply includes_append_r. apply includes_append_l.
  apply includes_append_r. apply includes_append_l.
  apply (includes_intro _ "" _
           (nl +:+ "   " +:+ Opportunity.description opp +:+ nl
            +:+ "   Schedule: " +:+ Schedule.details (Opportunity.schedule opp)
            +:+ nl +:+ "   Age: "
            +:+ show_number (Requirements.age_minimum (Opportunity.requirements opp))
            +:+ "+"
            +:+ (if Requirements.group_friendly (Opportunity.requirements opp)
                 then " | Group-friendly (max "
                      +:+ max_group_size_text
                            (Requirements.max_group_size (Opportunity.requirements opp))
                      +:+ ")"
                 else "")
            +:+ (if (0 <? length (Requirements.skills (Opportunity.requirements opp)))%nat
                 then " | Skills: "
                      +:+ join (Requirements.skills (Opportunity.requirements opp)) ", "
                 else "")
            +:+ nl
            +:+ "   Contact: " +:+ Contact.email (Opportunity.contact opp) +:+ " | "
            +:+ Contact.phone (Opportunity.contact opp) +:+ nl
            +:+ (match Opportunity.signup_url opp with
                 | Some u => if truthy u then "   Sign up: " +:+ u +:+ nl else ""
                 | None => ""
                 end))).
  unfold opportunity_paragraph. rewrite append_empty_l, !append_assoc.
  reflexivity.
Qed.

Lemma summary_numbers_every_match_witness :
  let ccData :=
    sample_ccData
      [ sample_opportunity "Meal service" "Serve dinner" 14 true [];
        sample_opportunity "Shelter desk" "Overnight shift" 18 false [] ] in
  includes (result_text (get_volunteer_opportunities ccData Params.none))
    "2. **Shelter desk** - Minneapolis" = true.
Proof.
  intros ccData.
  apply (summary_numbers_every_match ccData Params.none 1
           (sample_opportunity "Shelter desk" "Overnight shift" 18 false [])).
  reflexivity.
Defined.

(** ** Organization search on a document without [about] *)

(** X25. The blocks are all or nothing. On a document without
    [organization.about], a query that triggers the mission or the
    statistics category, or no category at all, is answered with the
    organization apology, whatever blocks other categories had already
    produced. *)
Theorem missing_about_discards_every_block
  (document : Raw.CCData.t) (query : string) :
  let q := toLowerCase query in
  Raw.Organization.about (Raw.CCData.organization document) = None ->
  mission_triggered q || stats_triggered q
  || negb (services_triggered q || contact_triggered q || events_triggered q)
  = true ->
  Raw.Outcome.result (Raw.search_org_info document query)
  = Raw.ToolResult.text_only Raw.org_apology.
Proof.
  intros q Habout Htrig. subst q.
  unfold Raw.search_org_info, Raw.search_org_info_body, Raw.org_results.
  generalize dependent (toLowerCase query). intros q Htrig.
  unfold Raw.mission_blocks, Raw.stats_blocks, Raw.default_blocks.
  rewrite Habout.
  destruct (Raw.service_blocks (Raw.CCData.organization document) q) as [e1|sb],
    (Raw.contact_blocks (Raw.CCData.organization document)) as [e2|cb],
    (Raw.events_blocks (Raw.CCData.organization document)) as [e3|eb],
    (mission_triggered q), (services_triggered q), (contact_triggered q),
    (events_triggered q), (stats_triggered q);
    first [discriminate Htrig | reflexivity].
Qed.

Lemma missing_about_discards_every_block_witness :
  let document :=
    {| Raw.CCData.volunteer := Raw.CCData.volunteer malformed_ccData;
       Raw.CCData.donations := Raw.CCData.donations malformed_ccData;
       Raw.CCData.organization :=
         {| Raw.Organization.mission := Some "We serve those most in need.";
            Raw.Organization.about := None;
            Raw.Organization.services :=
              Some [raw_service
                      {| Service.name := "Food Services";
                         Service.description := "Free meals every day.";
                         Service.keywords := ["food"; "meals"] |}];
            Raw.Organization.locations := None;
            Raw.Organization.upcoming_events := None;
            Raw.Organization.contact := None;
            Raw.Organization.service_area := None;
            Raw.Organization.source_url := None |} |} in
  Raw.Outcome.result (Raw.search_org_info document "food statistics")
  = Raw.ToolResult.text_only Raw.org_apology.
Proof.
  intros document.
  apply (missing_about_discards_every_block document "food statistics");
    reflexivity.
Defined.
